(** * Startup bootstrap of cluster authorization state

    A shallow embedding of [pkg/cmd/server/origin/ensure.go]: the
    startup-time "ensure" steps of the master (namespaces, service-account
    role bindings, default security context constraints and the cluster
    policy), written against an abstract cluster API, together with the
    properties the specification states about them.

    The Go code is sequential and talks to the API server through client
    handles.  Here every step is a computation in a small state-and-trace
    monad: the state is the cluster (any type [W] implementing the
    [Cluster] interface), and the trace records, in program order, every
    API call with the error it returned, every log line and every sleep. *)

From stdpp Require Import base option list strings gmap.
From Stdlib Require Import Lia.

Open Scope string_scope.
Open Scope list_scope.

(** ** API errors ([k8s.io/apimachinery/pkg/api/errors]) *)

Module kapierror.

(** The status reasons the code distinguishes; every other failure is
    [Other] with its message. *)
Inductive StatusError : Type :=
| NotFound
| AlreadyExists
| Conflict
| Other (msg : string).

(** A Go [error] value: [None] is [nil]. *)
Definition error : Type := option StatusError.

Definition IsNotFound (err : error) : bool :=
  match err with Some NotFound => true | _ => false end.

Definition IsAlreadyExists (err : error) : bool :=
  match err with Some AlreadyExists => true | _ => false end.

Definition IsConflict (err : error) : bool :=
  match err with Some Conflict => true | _ => false end.

Definition isNil (err : error) : bool :=
  match err with None => true | Some _ => false end.

End kapierror.

Export kapierror.

(** A Go pair [(value, err)]: the value is meaningful only when [err] is
    [nil]. *)
Inductive result (A : Type) : Type :=
| Ok (a : A)
| Err (e : StatusError).
Arguments Ok {A} a.
Arguments Err {A} e.

Definition err_of {A} (r : result A) : error :=
  match r with Ok _ => None | Err e => Some e end.

(** ** Objects *)

(** [kapi.Namespace]: the name and the annotations.  A Go map may be
    [nil]; reading a [nil] map yields the zero value. *)
Record Namespace : Type := mkNamespace {
  Name : string;
  Annotations : option (gmap string string)
}.

(** [namespace.Annotations[key]] *)
Definition annotation (namespace : Namespace) (key : string) : string :=
  match Annotations namespace with
  | None => ""
  | Some m => default "" (m !! key)
  end.

Record RoleRef : Type := mkRoleRef {
  RefNamespace : string;
  RefName : string
}.

Record Subject : Type := mkSubject {
  SubjectKind : string;
  SubjectNamespace : string;
  SubjectName : string
}.

(** A role binding of the bootstrap tables, with the fields the code
    reads: [Name], [RoleRef] and [Subjects]. *)
Record RoleBinding : Type := mkRoleBinding {
  BindingName : string;
  BindingRoleRef : RoleRef;
  Subjects : list Subject
}.

(** A role of the bootstrap tables; the code reads [Name] only. *)
Record Role : Type := mkRole { RoleName : string }.

(** [SecurityContextConstraints]; the code reads [Name] only, the
    permitted groups and users come from [GetBoostrapSCCAccess]. *)
Record SecurityContextConstraints : Type := mkSCC {
  SCCName : string;
  SCCGroups : list string;
  SCCUsers : list string
}.

(** [policy.RoleModificationOptions] as built at line 124; the accessor is
    the local one for [AccessorNamespace]. *)
Record RoleModificationOptions : Type := mkRoleModificationOptions {
  ModRoleName : string;
  ModRoleNamespace : string;
  AccessorNamespace : string;
  ModSubjects : list Subject
}.

(** [policy.ReconcileClusterRolesOptions] and
    [policy.ReconcileClusterRoleBindingsOptions]; [Out] is always
    [ioutil.Discard]. *)
Record ReconcileOptions : Type := mkReconcileOptions {
  RolesToReconcile : list string;
  Confirmed : bool;
  Union : bool
}.

(** [c.Options.PolicyConfig] *)
Record PolicyConfig : Type := mkPolicyConfig {
  BootstrapPolicyFile : string;
  OpenShiftSharedResourcesNamespace : string;
  OpenShiftInfrastructureNamespace : string
}.

(** ** Observable effects *)

(** The calls the code makes on its collaborators. *)
Inductive Op : Type :=
| NamespacesGet (name : string)
| NamespacesCreate (namespace : Namespace)
| NamespacesUpdate (namespace : Namespace)
| AddRole (o : RoleModificationOptions)
| SCCCreate (scc : SecurityContextConstraints)
| NewREST
| GetClusterPolicy (name : string)
| OverwriteBootstrapPolicy (file command : string) (change : bool)
| RolesCreate (namespace : string) (role : Role)
| RoleBindingsCreate (namespace : string) (roleBinding : RoleBinding)
| RunReconcileClusterRoles (o : ReconcileOptions)
| RunReconcileClusterRoleBindings (o : ReconcileOptions).

(** [glog.Errorf], [glog.Infof], [glog.V(2).Infof] and
    [utilruntime.HandleError]. *)
Inductive Severity : Type := Errorf | Infof | V2Infof | HandleError.

(** A log line keeps the format string of the source and the names it is
    applied to (the rendered error value is left out). *)
Inductive Event : Type :=
| Call (op : Op) (err : error)
| Log (sev : Severity) (format : string) (args : list string)
| Sleep (milliseconds : nat).

Definition Trace : Type := list Event.

(** What a call hands back next to its error.  The namespace client
    returns the persisted namespace; the code discards every other
    value. *)
Definition Reply (op : Op) : Type :=
  match op with
  | NamespacesGet _ | NamespacesCreate _ | NamespacesUpdate _ => Namespace
  | _ => unit
  end.

(** ** The collaborators *)

(** The cluster behind the client handles of [MasterConfig]: any state
    type with a total transition function for the calls above.  Nothing
    is assumed about it, so a call may fail in any way, and differently
    each time. *)
Class Cluster (W : Type) : Type :=
  api : forall op : Op, W -> result (Reply op) * W.

(** [rbac.Role] and [rbac.RoleBinding] of the upstream namespaced
    bootstrap policy, before conversion. *)
Record RbacRole : Type := mkRbacRole { RbacRoleName : string }.
Record RbacRoleBinding : Type := mkRbacRoleBinding { RbacBindingName : string }.

(** Modelled from the spec: the retry policy ("a bounded count with a
    defined backoff") of the retry primitive, which is not part of
    [ensure.go]: the number of retries after the first attempt and the
    pause before each of them. *)
Record RetryPolicy : Type := mkRetryPolicy {
  Retries : nat;
  BackoffMillis : nat
}.

(** The pure, in-process bootstrap data sources and constants of packages
    [bootstrappolicy], [kbootstrappolicy], [authorizationapi], [admin] and
    [retry].  The two namespaced tables are Go maps, ranged over in an
    unspecified order: they are given as the list of entries in the order
    of one iteration. *)
Class BootstrapPolicy : Type := {
  ControllerRoles : list Role;
  ControllerRoleBindings : list RoleBinding;
  GetBootstrapServiceAccountProjectRoleBindings : string -> list RoleBinding;
  GetBoostrapSCCAccess : string -> list string * list string;
  GetBootstrapSecurityContextConstraints :
    list string -> list string -> list SecurityContextConstraints;
  DiscoveryRoleName : string;
  NamespaceRoles : list (string * list RbacRole);
  NamespaceRoleBindings : list (string * list RbacRoleBinding);
  Convert_rbac_Role_To_authorization_Role : RbacRole -> result Role;
  Convert_rbac_RoleBinding_To_authorization_RoleBinding :
    RbacRoleBinding -> result RoleBinding;
  PolicyName : string;
  CreateBootstrapPolicyFileFullCommand : string;
  DefaultRetry : RetryPolicy
}.

(** [MasterConfig], reduced to what [ensure.go] reads from it; the client
    handles are the [Cluster]. *)
Record MasterConfig : Type := mkMasterConfig { Options : PolicyConfig }.

Definition NamespaceDefault : string := "default".
Definition rbac_GroupName : string := "rbac.authorization.k8s.io".

(** ** The state-and-trace monad *)

Record Outcome (W A : Type) : Type := mkOutcome {
  value : A;
  world : W;
  trace : Trace
}.
Arguments mkOutcome {W A} value world trace.
Arguments value {W A} o.
Arguments world {W A} o.
Arguments trace {W A} o.

Definition M (W A : Type) : Type := W -> Outcome W A.

Definition ret {W A} (a : A) : M W A := fun w => mkOutcome a w [].

Definition bind {W A B} (m : M W A) (k : A -> M W B) : M W B :=
  fun w =>
    let r := m w in
    let r' := k (value r) (world r) in
    mkOutcome (value r') (world r') (trace r ++ trace r').

Declare Scope ensure_scope.
Delimit Scope ensure_scope with ensure.
Notation "x <- c ;; k" := (bind c (fun x => k))
  (at level 100, c at next level, right associativity) : ensure_scope.
Notation "c ;;; k" := (bind c (fun _ => k))
  (at level 100, right associativity) : ensure_scope.
Open Scope ensure_scope.

Definition emit {W} (e : Event) : M W unit := fun w => mkOutcome tt w [e].

Definition log {W} (sev : Severity) (format : string) (args : list string)
  : M W unit := emit (Log sev format args).

Definition sleep {W} (milliseconds : nat) : M W unit :=
  emit (Sleep milliseconds).

(** One call on the cluster, recorded with the error it returned. *)
Definition call {W} `{Cluster W} (op : Op) : M W (result (Reply op)) :=
  fun w =>
    let r := api op w in
    mkOutcome r.1 r.2 [Call op (err_of r.1)].

(** [for _, x := range l { body }] *)
Fixpoint forM_ {W A} (body : A -> M W unit) (l : list A) : M W unit :=
  match l with
  | [] => ret tt
  | x :: l' => body x ;;; forM_ body l'
  end.

(** A range loop that updates one local variable. *)
Fixpoint foldM {W A B} (body : B -> A -> M W B) (l : list A) (b : B) : M W B :=
  match l with
  | [] => ret b
  | x :: l' => b' <- body b x ;; foldM body l' b'
  end.

(** ** The retry primitive *)

(** Modelled from the spec: [retry.RetryOnConflict], which lives in the
    client library and not in [ensure.go].  "Given a fallible mutation,
    retries it on version-conflict up to a bounded count with a defined
    backoff; returns terminal error otherwise": the mutation runs once;
    while it reports a conflict and retries are left, the primitive pauses
    and runs it again; the error of the last run is returned. *)
Fixpoint retryOnConflict {W} (retries pause : nat) (fn : M W error) : M W error :=
  err <- fn ;;
  if IsConflict err then
    match retries with
    | 0 => ret err
    | S retries' => sleep pause ;;; retryOnConflict retries' pause fn
    end
  else ret err.

(** Modelled from the spec: the entry point of the retry primitive, which
    takes the policy. *)
Definition RetryOnConflict {W} (backoff : RetryPolicy) (fn : M W error) : M W error :=
  retryOnConflict (Retries backoff) (BackoffMillis backoff) fn.

(** ** [ensure.go] *)

Section Ensure.

Context {W : Type} `{Cluster W} `{BootstrapPolicy}.
Variable c : MasterConfig.

Definition ServiceAccountRolesInitializedAnnotation : string :=
  "openshift.io/sa.initialized-roles".

(** [addRole.AddRole()] at line 130: the call, reduced to its error. *)
Definition addRole_AddRole (addRole : RoleModificationOptions) : M W error :=
  r <- call (AddRole addRole) ;; ret (err_of r).

(** Lines 124-129. *)
Definition addRoleOptions (namespace : Namespace) (binding : RoleBinding)
  : RoleModificationOptions :=
  {| ModRoleName := RefName (BindingRoleRef binding);
     ModRoleNamespace := RefNamespace (BindingRoleRef binding);
     AccessorNamespace := Name namespace;
     ModSubjects := Subjects binding |}.

(** The body of the loop at lines 123-134; [hasErrors] is the local it
    updates. *)
Definition addBinding (namespace : Namespace) (hasErrors : bool)
    (binding : RoleBinding) : M W bool :=
  let addRole := addRoleOptions namespace binding in
  err <- RetryOnConflict DefaultRetry (addRole_AddRole addRole) ;;
  if isNil err then ret hasErrors
  else
    log Errorf "Could not add service accounts to the %v role in the %q namespace: %v\n"
        [RefName (BindingRoleRef binding); Name namespace] ;;;
    ret true.

(** Lines 141-144: the in-place update of the namespace object. *)
Definition markInitialized (namespace : Namespace) : Namespace :=
  {| Name := Name namespace;
     Annotations :=
       Some (<[ServiceAccountRolesInitializedAnnotation := "true"]>
               (default ∅ (Annotations namespace))) |}.

(** [ensureNamespaceServiceAccountRoleBindings] (lines 114-149).  The Go
    function receives a pointer and may update the namespace in place:
    the value returned here is the object as the function leaves it. *)
Definition ensureNamespaceServiceAccountRoleBindings (namespace : Namespace)
  : M W Namespace :=
  if bool_decide (annotation namespace ServiceAccountRolesInitializedAnnotation = "true")
  then ret namespace
  else
    hasErrors <- foldM (addBinding namespace)
                   (GetBootstrapServiceAccountProjectRoleBindings (Name namespace))
                   false ;;
    if hasErrors then ret namespace
    else
      let namespace' := markInitialized namespace in
      r <- call (NamespacesUpdate namespace') ;;
      (if negb (isNil (err_of r)) && negb (IsConflict (err_of r))
       then log Errorf "Error recording adding service account roles to %q namespace: %v"
                [Name namespace']
       else ret tt) ;;;
      ret namespace'.

(** [ensureOpenShiftSharedResourcesNamespace] (lines 30-40). *)
Definition ensureOpenShiftSharedResourcesNamespace : M W unit :=
  let ns := OpenShiftSharedResourcesNamespace (Options c) in
  g <- call (NamespacesGet ns) ;;
  if IsNotFound (err_of g) then
    r <- call (NamespacesCreate {| Name := ns; Annotations := None |}) ;;
    match r with
    | Err createErr =>
        log Errorf "Error creating namespace: %v due to %v\n" [ns]
    | Ok namespace =>
        ensureNamespaceServiceAccountRoleBindings namespace ;;; ret tt
    end
  else ret tt.

(** Lines 47-58 of [ensureOpenShiftInfraNamespace]: the namespace the
    rest of the function works on, or [None] where the Go code returns
    early. *)
Definition ensureInfraNamespaceExists (ns : string) : M W (option Namespace) :=
  r <- call (NamespacesCreate {| Name := ns; Annotations := None |}) ;;
  if IsAlreadyExists (err_of r) then
    g <- call (NamespacesGet ns) ;;
    match g with
    | Err err => log Errorf "Error getting namespace %s: %v" [ns] ;;; ret None
    | Ok namespace => ret (Some namespace)
    end
  else
    match r with
    | Err err => log Errorf "Error creating namespace %s: %v" [ns] ;;; ret None
    | Ok namespace => ret (Some namespace)
    end.

Definition reconcileOptions (name : string) : ReconcileOptions :=
  {| RolesToReconcile := [name]; Confirmed := true; Union := true |}.

(** Lines 60-71. *)
Definition reconcileControllerRole (role : Role) : M W unit :=
  r <- call (RunReconcileClusterRoles (reconcileOptions (RoleName role))) ;;
  if isNil (err_of r) then ret tt
  else log Errorf "Could not reconcile %v: %v\n" [RoleName role].

(** Lines 72-83. *)
Definition reconcileControllerRoleBinding (roleBinding : RoleBinding) : M W unit :=
  r <- call (RunReconcileClusterRoleBindings
               (reconcileOptions (RefName (BindingRoleRef roleBinding)))) ;;
  if isNil (err_of r) then ret tt
  else log Errorf "Could not reconcile %v: %v\n" [BindingName roleBinding].

(** Lines 60-85: what [ensureOpenShiftInfraNamespace] does once it holds
    the namespace. *)
Definition initializeInfraNamespace (namespace : Namespace) : M W unit :=
  forM_ reconcileControllerRole ControllerRoles ;;;
  forM_ reconcileControllerRoleBinding ControllerRoleBindings ;;;
  ensureNamespaceServiceAccountRoleBindings namespace ;;;
  ret tt.

(** [ensureOpenShiftInfraNamespace] (lines 43-86). *)
Definition ensureOpenShiftInfraNamespace : M W unit :=
  let ns := OpenShiftInfrastructureNamespace (Options c) in
  o <- ensureInfraNamespaceExists ns ;;
  match o with
  | None => ret tt
  | Some namespace => initializeInfraNamespace namespace
  end.

(** How the wait loop of [ensureDefaultNamespaceServiceAccountRoles] is
    left: by [break] with the namespace, by [return] after an error, or
    by running out of iterations with [namespace == nil]. *)
Inductive WaitResult : Type :=
| Found (namespace : Namespace)
| Aborted
| NotYetCreated.

(** Lines 92-104: [for i := 0; i < 30; i++], with [attempts] the
    iterations that are left, [30 - i]. *)
Fixpoint waitForDefaultNamespace (attempts : nat) : M W WaitResult :=
  match attempts with
  | 0 => ret NotYetCreated
  | S attempts' =>
      g <- call (NamespacesGet NamespaceDefault) ;;
      match g with
      | Ok ns => ret (Found ns)
      | Err err =>
          if IsNotFound (Some err) then
            sleep 1000 ;;; waitForDefaultNamespace attempts'
          else
            log Errorf "Error adding service account roles to %q namespace: %v"
                [NamespaceDefault] ;;;
            ret Aborted
      end
  end.

(** [ensureDefaultNamespaceServiceAccountRoles] (lines 89-111). *)
Definition ensureDefaultNamespaceServiceAccountRoles : M W unit :=
  r <- waitForDefaultNamespace 30 ;;
  match r with
  | Aborted => ret tt
  | NotYetCreated =>
      log Errorf "Namespace %q not found, could not initialize the %q namespace"
          [NamespaceDefault; NamespaceDefault]
  | Found namespace =>
      ensureNamespaceServiceAccountRoleBindings namespace ;;; ret tt
  end.

(** The body of the loop of [ensureDefaultSecurityContextConstraints]
    (lines 156-164). *)
Definition createDefaultSCC (scc : SecurityContextConstraints) : M W unit :=
  r <- call (SCCCreate scc) ;;
  if IsAlreadyExists (err_of r) then ret tt
  else if negb (isNil (err_of r)) then
    log Errorf "Unable to create default security context constraint %s.  Got error: %v"
        [SCCName scc]
  else
    log Infof "Created default security context constraint %s" [SCCName scc].

(** The table the loop ranges over (lines 152-155). *)
Definition defaultSecurityContextConstraints : list SecurityContextConstraints :=
  let ns := OpenShiftInfrastructureNamespace (Options c) in
  let '(bootstrapSCCGroups, bootstrapSCCUsers) := GetBoostrapSCCAccess ns in
  GetBootstrapSecurityContextConstraints bootstrapSCCGroups bootstrapSCCUsers.

(** [ensureDefaultSecurityContextConstraints] (lines 151-166). *)
Definition ensureDefaultSecurityContextConstraints : M W unit :=
  forM_ createDefaultSCC defaultSecurityContextConstraints.

(** Lines 190-200: one role of the upstream namespaced table. *)
Definition createNamespaceRole (namespace : string) (rbacRole : RbacRole) : M W unit :=
  match Convert_rbac_Role_To_authorization_Role rbacRole with
  | Err err =>
      log HandleError "unable to convert role.%s/%s in %v: %v"
          [rbac_GroupName; RbacRoleName rbacRole; namespace]
  | Ok role =>
      r <- call (RolesCreate namespace role) ;;
      if isNil (err_of r) then ret tt
      else log HandleError "unable to reconcile role.%s/%s in %v: %v"
               [rbac_GroupName; RoleName role; namespace]
  end.

(** Lines 205-215: one role binding of the upstream namespaced table. *)
Definition createNamespaceRoleBinding (namespace : string)
    (rbacRoleBinding : RbacRoleBinding) : M W unit :=
  match Convert_rbac_RoleBinding_To_authorization_RoleBinding rbacRoleBinding with
  | Err err =>
      log HandleError "unable to convert rolebinding.%s/%s in %v: %v"
          [rbac_GroupName; RbacBindingName rbacRoleBinding; namespace]
  | Ok roleBinding =>
      r <- call (RoleBindingsCreate namespace roleBinding) ;;
      if isNil (err_of r) then ret tt
      else log HandleError "unable to reconcile rolebinding.%s/%s in %v: %v"
               [rbac_GroupName; BindingName roleBinding; namespace]
  end.

(** Lines 179-216: the branch taken when no cluster policy was found. *)
Definition createBootstrapPolicy : M W unit :=
  log Infof "No cluster policy found.  Creating bootstrap policy based on: %v"
      [BootstrapPolicyFile (Options c)] ;;;
  r <- call (OverwriteBootstrapPolicy (BootstrapPolicyFile (Options c))
               CreateBootstrapPolicyFileFullCommand true) ;;
  (if isNil (err_of r) then ret tt
   else log Errorf "Error creating bootstrap policy: %v" []) ;;;
  forM_ (fun '(namespace, roles) => forM_ (createNamespaceRole namespace) roles)
        NamespaceRoles ;;;
  forM_ (fun '(namespace, roleBindings) =>
           forM_ (createNamespaceRoleBinding namespace) roleBindings)
        NamespaceRoleBindings.

(** Lines 222-246: the roles and role bindings enforced on every server
    start. *)
Definition reconcileDiscovery : M W unit :=
  r <- call (RunReconcileClusterRoles (reconcileOptions DiscoveryRoleName)) ;;
  (if isNil (err_of r) then ret tt
   else log Errorf "Could not auto reconcile roles: %v\n" []) ;;;
  r' <- call (RunReconcileClusterRoleBindings (reconcileOptions DiscoveryRoleName)) ;;
  if isNil (err_of r') then ret tt
  else log Errorf "Could not auto reconcile role bindings: %v\n" [].

(** [ensureComponentAuthorizationRules] (lines 169-247). *)
Definition ensureComponentAuthorizationRules : M W unit :=
  s <- call NewREST ;;
  match s with
  | Err err => log Errorf "Error creating policy storage: %v" []
  | Ok clusterPolicyStorage =>
      g <- call (GetClusterPolicy PolicyName) ;;
      (if IsNotFound (err_of g) then createBootstrapPolicy
       else log V2Infof "Ignoring bootstrap policy file because cluster policy found" []) ;;;
      reconcileDiscovery
  end.

End Ensure.

(** ** An in-memory cluster

    A concrete [Cluster]: a namespace store, the cluster policy singleton,
    the security context constraints and the grants made so far, with a
    queue of injected failures.  A queued failure is returned by the next
    call of its kind, which then has no effect. *)

Module Sim.

Inductive OpKind : Type :=
| KNamespacesGet | KNamespacesCreate | KNamespacesUpdate | KAddRole
| KSCCCreate | KNewREST | KGetClusterPolicy | KOverwriteBootstrapPolicy
| KRolesCreate | KRoleBindingsCreate
| KRunReconcileClusterRoles | KRunReconcileClusterRoleBindings.

#[export] Instance OpKind_eq_dec : EqDecision OpKind.
Proof. solve_decision. Defined.

Definition kind (op : Op) : OpKind :=
  match op with
  | NamespacesGet _ => KNamespacesGet
  | NamespacesCreate _ => KNamespacesCreate
  | NamespacesUpdate _ => KNamespacesUpdate
  | AddRole _ => KAddRole
  | SCCCreate _ => KSCCCreate
  | NewREST => KNewREST
  | GetClusterPolicy _ => KGetClusterPolicy
  | OverwriteBootstrapPolicy _ _ _ => KOverwriteBootstrapPolicy
  | RolesCreate _ _ => KRolesCreate
  | RoleBindingsCreate _ _ => KRoleBindingsCreate
  | RunReconcileClusterRoles _ => KRunReconcileClusterRoles
  | RunReconcileClusterRoleBindings _ => KRunReconcileClusterRoleBindings
  end.

Record State : Type := mkState {
  namespaces : gmap string Namespace;
  clusterPolicy : bool;
  sccs : list string;
  grants : list RoleModificationOptions;
  faults : list (OpKind * StatusError)
}.

(** The first queued failure for calls of kind [k], and the queue
    without it. *)
Fixpoint takeFault (k : OpKind) (fs : list (OpKind * StatusError))
  : option (StatusError * list (OpKind * StatusError)) :=
  match fs with
  | [] => None
  | (k', e) :: fs' =>
      if bool_decide (k = k') then Some (e, fs')
      else match takeFault k fs' with
           | Some (e', rest) => Some (e', (k', e) :: rest)
           | None => None
           end
  end.

Definition withFaults (s : State) (fs : list (OpKind * StatusError)) : State :=
  mkState (namespaces s) (clusterPolicy s) (sccs s) (grants s) fs.

Definition withNamespace (s : State) (ns : Namespace) : State :=
  mkState (<[Name ns := ns]> (namespaces s)) (clusterPolicy s) (sccs s)
          (grants s) (faults s).

(** The call on a healthy store. *)
Definition serve (op : Op) (s : State) : result (Reply op) * State :=
  match op as o return result (Reply o) * State with
  | NamespacesGet name =>
      match namespaces s !! name with
      | Some ns => (Ok ns, s)
      | None => (Err NotFound, s)
      end
  | NamespacesCreate ns =>
      match namespaces s !! Name ns with
      | Some _ => (Err AlreadyExists, s)
      | None => (Ok ns, withNamespace s ns)
      end
  | NamespacesUpdate ns =>
      match namespaces s !! Name ns with
      | Some _ => (Ok ns, withNamespace s ns)
      | None => (Err NotFound, s)
      end
  | AddRole o =>
      (Ok tt, mkState (namespaces s) (clusterPolicy s) (sccs s)
                      (grants s ++ [o]) (faults s))
  | SCCCreate scc =>
      if bool_decide (SCCName scc ∈ sccs s) then (Err AlreadyExists, s)
      else (Ok tt, mkState (namespaces s) (clusterPolicy s)
                           (sccs s ++ [SCCName scc]) (grants s) (faults s))
  | GetClusterPolicy _ =>
      if clusterPolicy s then (Ok tt, s) else (Err NotFound, s)
  | OverwriteBootstrapPolicy _ _ _ =>
      (Ok tt, mkState (namespaces s) true (sccs s) (grants s) (faults s))
  | NewREST => (Ok tt, s)
  | RolesCreate _ _ => (Ok tt, s)
  | RoleBindingsCreate _ _ => (Ok tt, s)
  | RunReconcileClusterRoles _ => (Ok tt, s)
  | RunReconcileClusterRoleBindings _ => (Ok tt, s)
  end.

#[export] Instance cluster : Cluster State := fun op s =>
  match takeFault (kind op) (faults s) with
  | Some (e, rest) => (Err e, withFaults s rest)
  | None => serve op s
  end.

(** The bootstrap data of a small installation: the three
    service-account grants of every project, two security context
    constraints, one upstream namespaced role and binding. *)
Definition serviceAccountGroup (namespace : string) : Subject :=
  mkSubject "SystemGroup" "" ("system:serviceaccounts:" +:+ namespace).

Definition serviceAccount (namespace name : string) : Subject :=
  mkSubject "ServiceAccount" namespace name.

Definition projectRoleBindings (namespace : string) : list RoleBinding :=
  [ mkRoleBinding "system:image-pullers" (mkRoleRef "" "system:image-puller")
      [serviceAccountGroup namespace];
    mkRoleBinding "system:image-builders" (mkRoleRef "" "system:image-builder")
      [serviceAccount namespace "builder"];
    mkRoleBinding "system:deployers" (mkRoleRef "" "system:deployer")
      [serviceAccount namespace "deployer"] ].

#[export] Instance bootstrap : BootstrapPolicy := {|
  ControllerRoles := [mkRole "system:build-controller"];
  ControllerRoleBindings :=
    [mkRoleBinding "system:build-controller" (mkRoleRef "" "system:build-controller")
       [serviceAccount "openshift-infra" "build-controller"]];
  GetBootstrapServiceAccountProjectRoleBindings := projectRoleBindings;
  GetBoostrapSCCAccess ns :=
    (["system:cluster-admins"], ["system:serviceaccount:" +:+ ns +:+ ":build-controller"]);
  GetBootstrapSecurityContextConstraints groups users :=
    [mkSCC "privileged" groups users; mkSCC "restricted" ["system:authenticated"] []];
  DiscoveryRoleName := "system:discovery";
  NamespaceRoles := [("kube-public", [mkRbacRole "system:controller:bootstrap-signer"])];
  NamespaceRoleBindings :=
    [("kube-public", [mkRbacRoleBinding "system:controller:bootstrap-signer"])];
  Convert_rbac_Role_To_authorization_Role r := Ok (mkRole (RbacRoleName r));
  Convert_rbac_RoleBinding_To_authorization_RoleBinding b :=
    Ok (mkRoleBinding (RbacBindingName b) (mkRoleRef "" (RbacBindingName b)) []);
  PolicyName := "default";
  CreateBootstrapPolicyFileFullCommand := "oadm create-bootstrap-policy-file";
  DefaultRetry := mkRetryPolicy 4 10
|}.

Definition config : MasterConfig :=
  mkMasterConfig (mkPolicyConfig "policy.json" "openshift" "openshift-infra").

(** A fresh cluster, and the same cluster after a first start. *)
Definition fresh : State := mkState ∅ false [] [] [].

Definition project (name : string) : Namespace := mkNamespace name None.

Definition initialized (name : string) : Namespace :=
  mkNamespace name (Some {[ServiceAccountRolesInitializedAnnotation := "true"]}).

(** The cluster with the namespace [ns] in its store. *)
Definition having (ns : Namespace) : State := withNamespace fresh ns.

(** A cluster whose next calls of the given kinds fail. *)
Definition failing (fs : list (OpKind * StatusError)) : State :=
  withFaults fresh fs.

(** A cluster on which the first grant meets a conflict and then
    fails. *)
Definition flaky : State :=
  failing [(KAddRole, Conflict); (KAddRole, Other "etcd unavailable")].

(** A cluster on which the policy storage cannot be set up. *)
Definition withoutStorage : State :=
  failing [(KNewREST, Other "storage unavailable")].

(** A cluster on which the existence check of the cluster policy times
    out. *)
Definition unreadablePolicy : State :=
  failing [(KGetClusterPolicy, Other "request timed out")].

(** A cluster that refuses to create a namespace. *)
Definition refusingNamespaces : State :=
  failing [(KNamespacesCreate, Other "forbidden")].

(** A cluster that holds the cluster policy. *)
Definition bootstrapped : State := mkState ∅ true [] [] [].

(** A cluster on which the policy document cannot be seeded. *)
Definition unseedable : State :=
  failing [(KOverwriteBootstrapPolicy, Other "policy file not found")].

(** A cluster that holds the default namespace. *)
Definition withDefault : State := having (project "default").

(** An installation without service-account grants and with one upstream
    role that cannot be converted. *)
Definition bare : BootstrapPolicy := {|
  ControllerRoles := [];
  ControllerRoleBindings := [];
  GetBootstrapServiceAccountProjectRoleBindings _ := [];
  GetBoostrapSCCAccess _ := ([], []);
  GetBootstrapSecurityContextConstraints _ _ := [];
  DiscoveryRoleName := "system:discovery";
  NamespaceRoles :=
    [("kube-public", [mkRbacRole "system:controller:bootstrap-signer"; mkRbacRole ""])];
  NamespaceRoleBindings := [];
  Convert_rbac_Role_To_authorization_Role r :=
    if bool_decide (RbacRoleName r = "") then Err (Other "role without a name")
    else Ok (mkRole (RbacRoleName r));
  Convert_rbac_RoleBinding_To_authorization_RoleBinding b :=
    Ok (mkRoleBinding (RbacBindingName b) (mkRoleRef "" (RbacBindingName b)) []);
  PolicyName := "default";
  CreateBootstrapPolicyFileFullCommand := "oadm create-bootstrap-policy-file";
  DefaultRetry := mkRetryPolicy 4 10
|}.

End Sim.

(** * Properties *)

(** ** Reading traces *)

Definition isAddRole (e : Event) : bool :=
  match e with Call (AddRole _) _ => true | _ => false end.

Definition isNamespacesGet (e : Event) : bool :=
  match e with Call (NamespacesGet _) _ => true | _ => false end.

Definition isNamespacesCreate (e : Event) : bool :=
  match e with Call (NamespacesCreate _) _ => true | _ => false end.

Definition isNamespacesUpdate (e : Event) : bool :=
  match e with Call (NamespacesUpdate _) _ => true | _ => false end.

(** The policy document is seeded by [admin.OverwriteBootstrapPolicy]. *)
Definition isSeeding (e : Event) : bool :=
  match e with Call (OverwriteBootstrapPolicy _ _ _) _ => true | _ => false end.

(** The conversion of the upstream namespaced roles and role bindings: the
    creation of a converted object, or the report of a failed conversion
    or creation. *)
Definition isLegacyConversion (e : Event) : bool :=
  match e with
  | Call (RolesCreate _ _) _ | Call (RoleBindingsCreate _ _) _ => true
  | Log HandleError _ _ => true
  | _ => false
  end.

(** The existence check on the cluster policy and what it reported. *)
Definition isExistenceCheck (e : Event) : bool :=
  match e with Call (GetClusterPolicy _) _ => true | _ => false end.

Definition reportedAbsent (e : Event) : bool :=
  match e with Call (GetClusterPolicy _) err => IsNotFound err | _ => false end.

Definition reportedPresent (e : Event) : bool :=
  match e with Call (GetClusterPolicy _) err => isNil err | _ => false end.

(** The first call of a trace, if it makes one. *)
Fixpoint firstCall (t : Trace) : option Op :=
  match t with
  | [] => None
  | Call op _ :: _ => Some op
  | _ :: t' => firstCall t'
  end.

(** The trace begins with the creation of the namespace [ns]. *)
Definition createsFirst (ns : string) (t : Trace) : Prop :=
  exists err rest, t = Call (NamespacesCreate (mkNamespace ns None)) err :: rest.

(** [k] attempts that met a conflict, each followed by the pause before
    the next one. *)
Definition conflicts (op : Op) (pause k : nat) : Trace :=
  concat (replicate k [Call op (Some Conflict); Sleep pause]).

(** What one grant of the bootstrap table leaves in the trace when [k]
    attempts met a conflict and the last attempt returned [err]. *)
Definition grantEvents `{BootstrapPolicy} (namespace : Namespace)
    (binding : RoleBinding) (run : nat * error) : Trace :=
  let op := AddRole (addRoleOptions namespace binding) in
  conflicts op (BackoffMillis DefaultRetry) run.1 ++
  [Call op run.2] ++
  (if isNil run.2 then []
   else [Log Errorf
           "Could not add service accounts to the %v role in the %q namespace: %v\n"
           [RefName (BindingRoleRef binding); Name namespace]]).

(** A run of the retry primitive within its bound: at most [Retries]
    conflicts were retried, and a run that ends on a conflict has used
    them all. *)
Definition withinRetryPolicy `{BootstrapPolicy} (run : nat * error) : Prop :=
  run.1 <= Retries DefaultRetry /\
  (IsConflict run.2 = true -> run.1 = Retries DefaultRetry).

Definition grantSucceeded (run : nat * error) : bool := isNil run.2.

(** The events of the final write of the marker when the update returned
    [err]. *)
Definition markerWrite (namespace : Namespace) (err : error) : Trace :=
  Call (NamespacesUpdate (markInitialized namespace)) err ::
  (if negb (isNil err) && negb (IsConflict err)
   then [Log Errorf "Error recording adding service account roles to %q namespace: %v"
             [Name namespace]]
   else []).

(** What one default security context constraint leaves in the trace when
    its creation returned [err]. *)
Definition sccEvents (scc : SecurityContextConstraints) (err : error) : Trace :=
  Call (SCCCreate scc) err ::
  (if IsAlreadyExists err then []
   else if isNil err then
     [Log Infof "Created default security context constraint %s" [SCCName scc]]
   else
     [Log Errorf "Unable to create default security context constraint %s.  Got error: %v"
          [SCCName scc]]).

(** What the final reconciliation leaves in the trace when its two calls
    returned [e1] and [e2]. *)
Definition discoveryEvents `{BootstrapPolicy} (e1 e2 : error) : Trace :=
  [Call (RunReconcileClusterRoles (reconcileOptions DiscoveryRoleName)) e1] ++
  (if isNil e1 then [] else [Log Errorf "Could not auto reconcile roles: %v\n" []]) ++
  [Call (RunReconcileClusterRoleBindings (reconcileOptions DiscoveryRoleName)) e2] ++
  (if isNil e2 then [] else [Log Errorf "Could not auto reconcile role bindings: %v\n" []]).

(** The polling of the default namespace: [k] fetches that reported
    not-found, each followed by a one-second sleep. *)
Definition polls (k : nat) : Trace :=
  concat (replicate k [Call (NamespacesGet NamespaceDefault) (Some NotFound); Sleep 1000]).

(** ** Further readings of traces *)

(** What one controller role leaves in the trace when its reconciliation
    returned [err] (lines 60-71). *)
Definition roleReconcileEvents (role : Role) (err : error) : Trace :=
  Call (RunReconcileClusterRoles (reconcileOptions (RoleName role))) err ::
  (if isNil err then []
   else [Log Errorf "Could not reconcile %v: %v\n" [RoleName role]]).

(** What one controller role binding leaves in the trace when its
    reconciliation returned [err] (lines 72-83): the call is keyed by the
    name of the referenced role, the log line by the name of the
    binding. *)
Definition roleBindingReconcileEvents (roleBinding : RoleBinding) (err : error)
  : Trace :=
  Call (RunReconcileClusterRoleBindings
          (reconcileOptions (RefName (BindingRoleRef roleBinding)))) err ::
  (if isNil err then []
   else [Log Errorf "Could not reconcile %v: %v\n" [BindingName roleBinding]]).

(** A reconciliation names exactly one role, is confirmed and is in union
    mode; every other event passes. *)
Definition unionConfirmed (e : Event) : bool :=
  match e with
  | Call (RunReconcileClusterRoles o) _
  | Call (RunReconcileClusterRoleBindings o) _ =>
      Confirmed o && Union o && bool_decide (length (RolesToReconcile o) = 1)
  | _ => true
  end.

(** The calls the initializer of [namespace] may make: a grant of the
    bootstrap table of that namespace, made inside it, or the update that
    writes its marker. *)
Definition initializerEvent `{BootstrapPolicy} (namespace : Namespace) (e : Event)
  : Prop :=
  match e with
  | Call (AddRole o) _ =>
      exists binding,
        In binding (GetBootstrapServiceAccountProjectRoleBindings (Name namespace)) /\
        o = addRoleOptions namespace binding
  | Call (NamespacesUpdate namespace') _ => namespace' = markInitialized namespace
  | Call _ _ => False
  | _ => True
  end.

(** The namespace written by an update is [namespace] with the marker set
    and nothing else changed. *)
Definition updatesOnlyMarker (namespace : Namespace) (e : Event) : Prop :=
  match e with
  | Call (NamespacesUpdate namespace') _ =>
      Name namespace' = Name namespace /\
      annotation namespace' ServiceAccountRolesInitializedAnnotation = "true" /\
      forall key, key <> ServiceAccountRolesInitializedAnnotation ->
                  annotation namespace' key = annotation namespace key
  | _ => True
  end.

(** The error log of the final write of the marker (line 147). *)
Definition isRecordingErrorLog (e : Event) : bool :=
  match e with
  | Log Errorf format _ =>
      bool_decide
        (format = "Error recording adding service account roles to %q namespace: %v")
  | _ => false
  end.

(** An update that failed with anything but a conflict. *)
Definition updateFailedHard (e : Event) : bool :=
  match e with
  | Call (NamespacesUpdate _) err => negb (isNil err) && negb (IsConflict err)
  | _ => false
  end.

(** The upstream namespaced tables, entry by entry in the order of the
    iteration. *)
Definition legacyRoles `{BootstrapPolicy} : list (string * RbacRole) :=
  List.flat_map (fun entry => map (pair entry.1) entry.2) NamespaceRoles.

Definition legacyRoleBindings `{BootstrapPolicy} : list (string * RbacRoleBinding) :=
  List.flat_map (fun entry => map (pair entry.1) entry.2) NamespaceRoleBindings.

(** The converted object of an entry, if its conversion succeeds. *)
Definition convertedRole `{BootstrapPolicy} (entry : string * RbacRole)
  : option (string * Role) :=
  match Convert_rbac_Role_To_authorization_Role entry.2 with
  | Ok role => Some (entry.1, role)
  | Err _ => None
  end.

Definition convertedRoleBinding `{BootstrapPolicy} (entry : string * RbacRoleBinding)
  : option (string * RoleBinding) :=
  match Convert_rbac_RoleBinding_To_authorization_RoleBinding entry.2 with
  | Ok roleBinding => Some (entry.1, roleBinding)
  | Err _ => None
  end.

(** The role, or role binding, a call creates. *)
Definition createdRole (e : Event) : option (string * Role) :=
  match e with Call (RolesCreate namespace role) _ => Some (namespace, role) | _ => None end.

Definition createdRoleBinding (e : Event) : option (string * RoleBinding) :=
  match e with
  | Call (RoleBindingsCreate namespace roleBinding) _ => Some (namespace, roleBinding)
  | _ => None
  end.

(** The namespace calls [ensureDefaultNamespaceServiceAccountRoles] may
    make: fetches of the default namespace and updates, never a
    creation. *)
Definition waitsForDefault (e : Event) : Prop :=
  match e with
  | Call (NamespacesGet name) _ => name = NamespaceDefault
  | Call (NamespacesCreate _) _ => False
  | _ => True
  end.

(** ** The monad and the loops *)

Section Basics.

Context {W : Type} `{Cluster W}.

Lemma trace_bind {A B} (m : M W A) (k : A -> M W B) (w : W) :
  trace (bind m k w) = trace (m w) ++ trace (k (value (m w)) (world (m w))).
Proof. reflexivity. Qed.

Lemma value_bind {A B} (m : M W A) (k : A -> M W B) (w : W) :
  value (bind m k w) = value (k (value (m w)) (world (m w))).
Proof. reflexivity. Qed.

Lemma world_bind {A B} (m : M W A) (k : A -> M W B) (w : W) :
  world (bind m k w) = world (k (value (m w)) (world (m w))).
Proof. reflexivity. Qed.

Lemma call_outcome (op : Op) (w : W) :
  call op w = mkOutcome (api op w).1 (api op w).2 [Call op (err_of (api op w).1)].
Proof. reflexivity. Qed.

(** A loop whose body only emits events accepted by [P] only emits such
    events. *)
Lemma forM__Forall {A} (P : Event -> Prop) (body : A -> M W unit) (l : list A) :
  (forall x w, Forall P (trace (body x w))) ->
  forall w, Forall P (trace (forM_ body l w)).
Proof.
  intros Hbody. induction l as [|x l IH]; intros w; cbn [forM_].
  - constructor.
  - rewrite trace_bind. apply Forall_app; split; [apply Hbody | apply IH].
Qed.

Lemma conflicts_S (op : Op) (pause k : nat) :
  conflicts op pause (S k) =
  Call op (Some Conflict) :: Sleep pause :: conflicts op pause k.
Proof. reflexivity. Qed.

(** The retry primitive on a single call: some number [k] of attempts
    meet a conflict and are retried after the pause, then one attempt
    ends the run with the error that is returned.  [k] never exceeds the
    bound, and a run can only end on a conflict when the bound is
    reached. *)
Lemma retryOnConflict_run (op : Op) (pause retries : nat) (w : W) :
  let r := retryOnConflict retries pause
             (x <- call op ;; ret (err_of x)) w in
  exists k : nat,
    k <= retries /\
    (IsConflict (value r) = true -> k = retries) /\
    trace r = conflicts op pause k ++ [Call op (value r)].
Proof.
  revert w. induction retries as [|n IH]; intros w; cbn zeta.
  - exists 0. simpl.
    destruct (IsConflict (err_of (api op w).1)) eqn:E; simpl;
      (split; [lia | split; [auto | reflexivity]]).
  - simpl.
    destruct (IsConflict (err_of (api op w).1)) eqn:E; simpl.
    + destruct (IH (api op w).2) as (k & Hk & Hc & Ht).
      exists (S k). cbn zeta in *. split; [lia | split].
      * intros Hv. f_equal. apply Hc. exact Hv.
      * rewrite Ht. rewrite conflicts_S.
        destruct (err_of (api op w).1) as [[]|]; try discriminate.
        reflexivity.
    + exists 0. split; [lia | split; [|reflexivity]].
      rewrite E. discriminate.
Qed.

End Basics.

(** ** Service-account role bindings of a namespace *)

Section ServiceAccountRoles.

Context {W : Type} `{Cluster W} `{BootstrapPolicy}.

Lemma grantEvents_no_update (namespace : Namespace) (binding : RoleBinding)
    (run : nat * error) :
  Forall (fun e => isNamespacesUpdate e = false) (grantEvents namespace binding run).
Proof.
  destruct run as [k err]. unfold grantEvents; simpl.
  apply Forall_app; split.
  - induction k as [|k IH]; [constructor|].
    rewrite conflicts_S. repeat constructor. exact IH.
  - destruct (isNil err); repeat constructor.
Qed.

Lemma grantEvents_no_get (namespace : Namespace) (binding : RoleBinding)
    (run : nat * error) :
  Forall (fun e => isNamespacesGet e = false) (grantEvents namespace binding run).
Proof.
  destruct run as [k err]. unfold grantEvents; simpl.
  apply Forall_app; split.
  - induction k as [|k IH]; [constructor|].
    rewrite conflicts_S. repeat constructor. exact IH.
  - destruct (isNil err); repeat constructor.
Qed.

(** One iteration of the grant loop. *)
Lemma addBinding_run (namespace : Namespace) (hasErrors : bool)
    (binding : RoleBinding) (w : W) :
  let r := addBinding namespace hasErrors binding w in
  exists run : nat * error,
    withinRetryPolicy run /\
    trace r = grantEvents namespace binding run /\
    value r = hasErrors || negb (grantSucceeded run).
Proof.
  cbn zeta. unfold addBinding, RetryOnConflict, addRole_AddRole.
  destruct (retryOnConflict_run (AddRole (addRoleOptions namespace binding))
              (BackoffMillis DefaultRetry) (Retries DefaultRetry) w)
    as (k & Hk & Hc & Ht).
  cbn zeta in Hc, Ht.
  set (r := retryOnConflict _ _ _ w) in *.
  exists (k, value r). split; [split; assumption|].
  rewrite trace_bind, value_bind. fold r. rewrite Ht.
  unfold grantEvents, grantSucceeded; simpl.
  destruct (isNil (value r)); simpl.
  - rewrite app_nil_r, orb_false_r. split; reflexivity.
  - rewrite orb_true_r, <- app_assoc. split; reflexivity.
Qed.

(** The whole grant loop: every binding of the table is attempted, in
    order, whatever happened to the ones before it. *)
Lemma grants_run (namespace : Namespace) (table : list RoleBinding) :
  forall (hasErrors : bool) (w : W),
    let r := foldM (addBinding namespace) table hasErrors w in
    exists runs : list (nat * error),
      length runs = length table /\
      Forall withinRetryPolicy runs /\
      trace r = concat (zip_with (grantEvents namespace) table runs) /\
      value r = hasErrors || negb (forallb grantSucceeded runs).
Proof.
  induction table as [|binding table IH]; intros hasErrors w; cbn zeta.
  - exists []. simpl. rewrite orb_false_r. auto.
  - cbn [foldM]. rewrite trace_bind, value_bind.
    destruct (addBinding_run namespace hasErrors binding w)
      as (run & Hrun & Ht & Hv). cbn zeta in Ht, Hv.
    destruct (IH (value (addBinding namespace hasErrors binding w))
                 (world (addBinding namespace hasErrors binding w)))
      as (runs & Hlen & Hruns & Hts & Hvs). cbn zeta in Hts, Hvs.
    rewrite Ht, Hts, Hvs, Hv.
    exists (run :: runs). simpl. split; [lia|]. split; [constructor; assumption|].
    split; [reflexivity|].
    destruct hasErrors, (grantSucceeded run); reflexivity.
Qed.

Lemma annotation_markInitialized (namespace : Namespace) :
  annotation (markInitialized namespace) ServiceAccountRolesInitializedAnnotation
  = "true".
Proof. unfold annotation, markInitialized; simpl. by rewrite lookup_insert_eq. Qed.

(** The initializer on a namespace that is not marked: the grants, then
    the marker if and only if every grant succeeded. *)
Lemma initializer_run (namespace : Namespace) (w : W) :
  annotation namespace ServiceAccountRolesInitializedAnnotation <> "true" ->
  let r := ensureNamespaceServiceAccountRoleBindings namespace w in
  let table := GetBootstrapServiceAccountProjectRoleBindings (Name namespace) in
  exists runs : list (nat * error),
    length runs = length table /\
    Forall withinRetryPolicy runs /\
    if forallb grantSucceeded runs
    then value r = markInitialized namespace /\
         exists err, trace r = concat (zip_with (grantEvents namespace) table runs)
                               ++ markerWrite namespace err
    else value r = namespace /\
         trace r = concat (zip_with (grantEvents namespace) table runs).
Proof.
  intros Hmark. cbn zeta. unfold ensureNamespaceServiceAccountRoleBindings.
  rewrite bool_decide_eq_false_2 by exact Hmark.
  destruct (grants_run namespace
              (GetBootstrapServiceAccountProjectRoleBindings (Name namespace)) false w)
    as (runs & Hlen & Hruns & Ht & Hv). cbn zeta in Ht, Hv.
  exists runs. split; [exact Hlen|]. split; [exact Hruns|].
  rewrite trace_bind, value_bind, Ht, Hv. simpl orb.
  destruct (forallb grantSucceeded runs); cbn [orb negb].
  - split; [reflexivity|].
    rewrite trace_bind, call_outcome. cbn [value world trace].
    set (g := api (NamespacesUpdate (markInitialized namespace)) _).
    exists (err_of g.1). unfold markerWrite. rewrite trace_bind.
    destruct (negb (isNil (err_of g.1)) && negb (IsConflict (err_of g.1)));
      simpl; rewrite ?app_nil_r; reflexivity.
  - simpl. rewrite app_nil_r. split; reflexivity.
Qed.


(** C3.  On a namespace whose marker annotation reads "true" the
    initializer returns at once: it makes no call at all (so no grant is
    added and neither the namespace nor a role binding is written), logs
    nothing, and leaves the cluster and the namespace object as they
    were. *)
Theorem initialized_namespace_is_noop (namespace : Namespace) (w : W) :
  annotation namespace ServiceAccountRolesInitializedAnnotation = "true" ->
  ensureNamespaceServiceAccountRoleBindings namespace w
  = mkOutcome namespace w [].
Proof.
  intros Hmark. unfold ensureNamespaceServiceAccountRoleBindings.
  rewrite bool_decide_eq_true_2 by exact Hmark. reflexivity.
Qed.

(** C2.  On a namespace that is not marked, the initializer first runs
    the grants of the bootstrap table, all of them.  If every grant
    succeeded, the update that writes the marker follows the last grant
    and the namespace object carries the annotation "true".  If some
    grant failed for good, nothing follows the grants: no namespace
    update is issued and the namespace object is returned as it was, so
    its marker still does not read "true". *)
Theorem marker_only_after_all_grants (namespace : Namespace) (w : W) :
  annotation namespace ServiceAccountRolesInitializedAnnotation <> "true" ->
  let r := ensureNamespaceServiceAccountRoleBindings namespace w in
  let table := GetBootstrapServiceAccountProjectRoleBindings (Name namespace) in
  exists (runs : list (nat * error)) (rest : Trace),
    length runs = length table /\
    trace r = concat (zip_with (grantEvents namespace) table runs) ++ rest /\
    if forallb grantSucceeded runs
    then (exists err, rest = markerWrite namespace err) /\
         value r = markInitialized namespace /\
         annotation (value r) ServiceAccountRolesInitializedAnnotation = "true"
    else rest = [] /\
         value r = namespace /\
         existsb isNamespacesUpdate (trace r) = false /\
         annotation (value r) ServiceAccountRolesInitializedAnnotation <> "true".
Proof.
  intros Hmark. cbn zeta.
  destruct (initializer_run namespace w Hmark) as (runs & Hlen & _ & Hrun).
  cbn zeta in Hrun.
  destruct (forallb grantSucceeded runs) eqn:Hall.
  - destruct Hrun as (Hv & err & Ht).
    exists runs, (markerWrite namespace err). rewrite Hall.
    split; [exact Hlen|]. split; [exact Ht|].
    split; [eauto|]. split; [exact Hv|].
    rewrite Hv. apply annotation_markInitialized.
  - destruct Hrun as (Hv & Ht).
    exists runs, []. rewrite Hall, app_nil_r.
    split; [exact Hlen|]. split; [exact Ht|].
    split; [reflexivity|]. split; [exact Hv|]. split; [|by rewrite Hv].
    rewrite Ht. apply not_true_is_false. intros Hex.
    apply existsb_exists in Hex as (e & Hin & He).
    apply in_concat in Hin as (t & Ht' & Hin).
    apply list_elem_of_In, elem_of_lookup_zip_with in Ht'
      as (i & binding & run & -> & _ & _).
    pose proof (grantEvents_no_update namespace binding run) as Hno.
    rewrite Forall_forall in Hno.
    apply list_elem_of_In, Hno in Hin. congruence.
Qed.

(** C8.  On a namespace that is not marked, every binding of the
    bootstrap table gets its own run of the retry primitive, in the order
    of the table: the attempts that met a conflict, each retried after
    the pause and never more than the policy allows, then the attempt
    that ends the run; an error other than a conflict ends the run at
    once, and a run that ends on an error is logged.  The runs follow
    each other whatever their results, and no grant is attempted
    outside them. *)
Theorem grants_retried_on_conflict_and_independent (namespace : Namespace) (w : W) :
  annotation namespace ServiceAccountRolesInitializedAnnotation <> "true" ->
  let r := ensureNamespaceServiceAccountRoleBindings namespace w in
  let table := GetBootstrapServiceAccountProjectRoleBindings (Name namespace) in
  exists (runs : list (nat * error)) (rest : Trace),
    length runs = length table /\
    Forall withinRetryPolicy runs /\
    trace r = concat (zip_with (grantEvents namespace) table runs) ++ rest /\
    Forall (fun e => isAddRole e = false) rest.
Proof.
  intros Hmark. cbn zeta.
  destruct (initializer_run namespace w Hmark) as (runs & Hlen & Hruns & Hrun).
  cbn zeta in Hrun.
  destruct (forallb grantSucceeded runs).
  - destruct Hrun as (_ & err & Ht).
    exists runs, (markerWrite namespace err).
    split; [exact Hlen|]. split; [exact Hruns|]. split; [exact Ht|].
    unfold markerWrite.
    destruct (negb (isNil err) && negb (IsConflict err)); repeat constructor.
  - destruct Hrun as (_ & Ht).
    exists runs, []. rewrite app_nil_r.
    split; [exact Hlen|]. split; [exact Hruns|]. split; [exact Ht|]. constructor.
Qed.

End ServiceAccountRoles.

(** ** Namespaces *)

Section Namespaces.

Context {W : Type} `{Cluster W} `{BootstrapPolicy}.
Variable c : MasterConfig.

(** The initializer never fetches a namespace. *)
Lemma initializer_no_get (namespace : Namespace) (w : W) :
  Forall (fun e => isNamespacesGet e = false)
         (trace (ensureNamespaceServiceAccountRoleBindings namespace w)).
Proof.
  destruct (decide (annotation namespace ServiceAccountRolesInitializedAnnotation
                    = "true")) as [Hmark|Hmark].
  - unfold ensureNamespaceServiceAccountRoleBindings.
    rewrite bool_decide_eq_true_2 by exact Hmark. constructor.
  - destruct (initializer_run namespace w Hmark) as (runs & _ & _ & Hrun).
    cbn zeta in Hrun.
    assert (Forall (fun e => isNamespacesGet e = false)
              (concat (zip_with (grantEvents namespace)
                 (GetBootstrapServiceAccountProjectRoleBindings (Name namespace))
                 runs))) as Hgrants.
    { apply Forall_concat, Forall_forall. intros t Ht.
      apply elem_of_lookup_zip_with in Ht as (i & binding & run & -> & _ & _).
      apply grantEvents_no_get. }
    destruct (forallb grantSucceeded runs).
    + destruct Hrun as (_ & err & ->). apply Forall_app; split; [exact Hgrants|].
      unfold markerWrite.
      destruct (negb (isNil err) && negb (IsConflict err)); repeat constructor.
    + destruct Hrun as (_ & ->). exact Hgrants.
Qed.

Lemma polls_S (k : nat) :
  polls (S k) =
  Call (NamespacesGet NamespaceDefault) (Some NotFound) :: Sleep 1000 :: polls k.
Proof. reflexivity. Qed.

Lemma polls_gets (k : nat) : length (List.filter isNamespacesGet (polls k)) = k.
Proof. induction k as [|k IH]; [reflexivity|]. rewrite polls_S. simpl. by rewrite IH. Qed.

(** The wait loop with [n] iterations left: [k] fetches report
    not-found and are followed by a sleep; then the loop is left in one
    of its three ways. *)
Lemma waitForDefaultNamespace_run (n : nat) (w : W) :
  let r := waitForDefaultNamespace n w in
  exists k : nat,
    (k = n /\ value r = NotYetCreated /\ trace r = polls k) \/
    (k < n /\ value r = Aborted /\
     exists e, IsNotFound (Some e) = false /\
       trace r = polls k ++
         [Call (NamespacesGet NamespaceDefault) (Some e);
          Log Errorf "Error adding service account roles to %q namespace: %v"
              [NamespaceDefault]]) \/
    (k < n /\ exists namespace,
       value r = Found namespace /\
       trace r = polls k ++ [Call (NamespacesGet NamespaceDefault) None]).
Proof.
  revert w. induction n as [|n IH]; intros w; cbn zeta.
  - exists 0. left. auto.
  - cbn [waitForDefaultNamespace].
    rewrite trace_bind, value_bind, call_outcome. cbn [value world trace].
    destruct (api (NamespacesGet NamespaceDefault) w) as [[namespace|e] w'] eqn:E;
      cbn [fst snd err_of].
    + exists 0. right. right. split; [lia|]. exists namespace. auto.
    + destruct (IsNotFound (Some e)) eqn:Enf.
      * destruct e; try discriminate.
        destruct (IH w') as (k & Hk). cbn zeta in Hk. exists (S k).
        rewrite trace_bind, value_bind. cbn [sleep emit value world trace].
        destruct Hk as [(-> & Hv & Ht) | [(Hlt & Hv & e & He & Ht)
                                        | (Hlt & namespace & Hv & Ht)]].
        -- left. rewrite Hv, Ht. auto.
        -- right. left. split; [lia|]. rewrite Hv, Ht. split; [reflexivity|].
           exists e. auto.
        -- right. right. split; [lia|]. exists namespace.
           rewrite Hv, Ht. auto.
      * exists 0. right. left. split; [lia|]. split; [reflexivity|].
        exists e. auto.
Qed.

(** C5.  The wait for the default namespace fetches it at most 30 times.
    Its trace is a number [k] of fetches that reported not-found, each
    followed by a sleep of one second, and then one of: the bound is
    reached ([k = 30]) and the failure is logged; a fetch fails with
    another error, which is logged; a fetch succeeds, and only then the
    role bindings of the namespace are initialized.  The function is
    total: the loop runs on its counter. *)
Theorem default_namespace_wait_is_bounded (w : W) :
  let r := ensureDefaultNamespaceServiceAccountRoles w in
  length (List.filter isNamespacesGet (trace r)) <= 30 /\
  exists (k : nat) (tail : Trace),
    trace r = polls k ++ tail /\
    ((k = 30 /\
      tail = [Log Errorf
                "Namespace %q not found, could not initialize the %q namespace"
                [NamespaceDefault; NamespaceDefault]]) \/
     (k < 30 /\ exists e,
        IsNotFound (Some e) = false /\
        tail = [Call (NamespacesGet NamespaceDefault) (Some e);
                Log Errorf "Error adding service account roles to %q namespace: %v"
                    [NamespaceDefault]]) \/
     (k < 30 /\ exists namespace w',
        tail = Call (NamespacesGet NamespaceDefault) None ::
               trace (ensureNamespaceServiceAccountRoleBindings namespace w'))).
Proof.
  cbn zeta. unfold ensureDefaultNamespaceServiceAccountRoles.
  rewrite trace_bind.
  destruct (waitForDefaultNamespace_run 30 w) as (k & Hk). cbn zeta in Hk.
  destruct Hk as [(-> & Hv & Ht) | [(Hlt & Hv & e & He & Ht)
                                  | (Hlt & namespace & Hv & Ht)]];
    rewrite Hv, Ht.
  - split.
    + rewrite List.filter_app, length_app, polls_gets. simpl. lia.
    + exists 30, [Log Errorf
                    "Namespace %q not found, could not initialize the %q namespace"
                    [NamespaceDefault; NamespaceDefault]].
      split; [reflexivity|]. left. auto.
  - split.
    + rewrite app_nil_r, List.filter_app, length_app, polls_gets. simpl. lia.
    + eexists k, _. rewrite app_nil_r. split; [reflexivity|].
      right. left. split; [exact Hlt|]. exists e. auto.
  - set (w' := world (waitForDefaultNamespace 30 w)).
    rewrite trace_bind. cbn [ret trace]. rewrite app_nil_r.
    split.
    + rewrite !List.filter_app, !length_app, polls_gets.
      pose proof (initializer_no_get namespace w') as Hno.
      replace (List.filter isNamespacesGet
                 (trace (ensureNamespaceServiceAccountRoleBindings namespace w')))
        with (@nil Event).
      * simpl. lia.
      * symmetry. induction Hno as [|e t He _ IH]; [reflexivity|].
        simpl. rewrite He. exact IH.
    + exists k, (Call (NamespacesGet NamespaceDefault) None ::
                 trace (ensureNamespaceServiceAccountRoleBindings namespace w')).
      split; [by rewrite <- app_assoc|].
      right. right. split; [exact Hlt|]. exists namespace, w'. reflexivity.
Qed.


(** [ensureOpenShiftSharedResourcesNamespace], case by case. *)
Lemma shared_namespace_run (w : W) :
  let ns := OpenShiftSharedResourcesNamespace (Options c) in
  let fetched := api (NamespacesGet ns) w in
  let created := api (NamespacesCreate (mkNamespace ns None)) fetched.2 in
  ensureOpenShiftSharedResourcesNamespace c w =
  if IsNotFound (err_of fetched.1) then
    match created.1 with
    | Ok namespace =>
        let i := ensureNamespaceServiceAccountRoleBindings namespace created.2 in
        mkOutcome tt (world i)
          (Call (NamespacesGet ns) (Some NotFound) ::
           Call (NamespacesCreate (mkNamespace ns None)) None :: trace i ++ [])
    | Err e =>
        mkOutcome tt created.2
          [Call (NamespacesGet ns) (Some NotFound);
           Call (NamespacesCreate (mkNamespace ns None)) (Some e);
           Log Errorf "Error creating namespace: %v due to %v\n" [ns]]
    end
  else mkOutcome tt fetched.2 [Call (NamespacesGet ns) (err_of fetched.1)].
Proof.
  cbn zeta. unfold ensureOpenShiftSharedResourcesNamespace. cbn zeta.
  set (ns := OpenShiftSharedResourcesNamespace (Options c)).
  unfold bind, call. cbn [value world trace].
  destruct (api (NamespacesGet ns) w) as [g w1]. cbn [fst snd].
  destruct (IsNotFound (err_of g)) eqn:Enf; [|reflexivity].
  destruct g as [|[]]; try discriminate. cbn [err_of value world trace].
  destruct (api (NamespacesCreate (mkNamespace ns None)) w1) as [[namespace|e] w2];
    reflexivity.
Qed.

(** C9.  In [ensureOpenShiftSharedResourcesNamespace], when the fetch of
    the shared namespace succeeds or fails with an error other than
    not-found, the fetch is all that happens: nothing is created, no role
    binding is initialized, nothing is logged.  And whenever the function
    adds a grant, it has created the namespace itself before. *)
Theorem shared_namespace_initialized_only_when_created (w : W) :
  let ns := OpenShiftSharedResourcesNamespace (Options c) in
  let fetched := api (NamespacesGet ns) w in
  let r := ensureOpenShiftSharedResourcesNamespace c w in
  (IsNotFound (err_of fetched.1) = false ->
   r = mkOutcome tt fetched.2 [Call (NamespacesGet ns) (err_of fetched.1)]) /\
  (existsb isAddRole (trace r) = true ->
   exists rest,
     trace r = Call (NamespacesGet ns) (Some NotFound) ::
               Call (NamespacesCreate (mkNamespace ns None)) None :: rest).
Proof.
  cbn zeta. rewrite shared_namespace_run. cbn zeta.
  set (ns := OpenShiftSharedResourcesNamespace (Options c)).
  destruct (api (NamespacesGet ns) w) as [g w1]. cbn [fst snd].
  destruct (IsNotFound (err_of g)) eqn:Enf.
  - split; [discriminate|]. intros Hadd.
    destruct (api (NamespacesCreate (mkNamespace ns None)) w1) as [[namespace|e] w2];
      cbn [fst snd trace] in *.
    + eexists. reflexivity.
    + simpl in Hadd. discriminate.
  - split; [reflexivity|]. simpl. intros Hadd. discriminate.
Qed.

(** C4, as the code has it.  [ensureOpenShiftInfraNamespace] begins by
    creating the namespace.  If the store reports already-exists it
    fetches the namespace by name and carries on with the fetched one;
    if creation succeeds it carries on with the created one; on any
    other creation error it logs the error and does nothing more.
    [ensureOpenShiftSharedResourcesNamespace] begins by fetching the
    namespace and attempts the creation exactly when the fetch reported
    not-found; a creation error other than already-exists is then
    logged and nothing more is done. *)
Theorem namespace_ensurers_create_or_fetch (w : W) :
  (let ns := OpenShiftInfrastructureNamespace (Options c) in
   let created := api (NamespacesCreate (mkNamespace ns None)) w in
   let r := ensureOpenShiftInfraNamespace c w in
   match created.1 with
   | Ok namespace =>
       trace r = Call (NamespacesCreate (mkNamespace ns None)) None ::
                 trace (initializeInfraNamespace namespace created.2)
   | Err AlreadyExists =>
       let fetched := api (NamespacesGet ns) created.2 in
       match fetched.1 with
       | Ok namespace =>
           trace r = Call (NamespacesCreate (mkNamespace ns None)) (Some AlreadyExists) ::
                     Call (NamespacesGet ns) None ::
                     trace (initializeInfraNamespace namespace fetched.2)
       | Err e =>
           trace r = [Call (NamespacesCreate (mkNamespace ns None)) (Some AlreadyExists);
                      Call (NamespacesGet ns) (Some e);
                      Log Errorf "Error getting namespace %s: %v" [ns]]
       end
   | Err e =>
       trace r = [Call (NamespacesCreate (mkNamespace ns None)) (Some e);
                  Log Errorf "Error creating namespace %s: %v" [ns]]
   end) /\
  (let ns := OpenShiftSharedResourcesNamespace (Options c) in
   let fetched := api (NamespacesGet ns) w in
   let r := ensureOpenShiftSharedResourcesNamespace c w in
   firstCall (trace r) = Some (NamespacesGet ns) /\
   existsb isNamespacesCreate (trace r) = IsNotFound (err_of fetched.1) /\
   (IsNotFound (err_of fetched.1) = true ->
    forall e, (api (NamespacesCreate (mkNamespace ns None)) fetched.2).1 = Err e ->
    IsAlreadyExists (Some e) = false ->
    trace r = [Call (NamespacesGet ns) (Some NotFound);
               Call (NamespacesCreate (mkNamespace ns None)) (Some e);
               Log Errorf "Error creating namespace: %v due to %v\n" [ns]])).
Proof.
  split; cbn zeta.
  - unfold ensureOpenShiftInfraNamespace, ensureInfraNamespaceExists. cbn zeta.
    set (ns := OpenShiftInfrastructureNamespace (Options c)).
    rewrite !trace_bind, !value_bind, !world_bind, call_outcome.
    cbn [value world trace].
    destruct (api (NamespacesCreate (mkNamespace ns None)) w) as [[namespace|e] w1];
      cbn [fst snd err_of IsAlreadyExists].
    + cbn [ret value world trace]. rewrite app_nil_r. reflexivity.
    + destruct e; cbn [ret bind log emit value world trace];
        try reflexivity.
      rewrite call_outcome. cbn [value world trace].
      destruct (api (NamespacesGet ns) w1) as [[namespace|e] w2];
        cbn [fst snd err_of]; reflexivity.
  - rewrite shared_namespace_run. cbn zeta.
    set (ns := OpenShiftSharedResourcesNamespace (Options c)).
    destruct (api (NamespacesGet ns) w) as [g w1]. cbn [fst snd].
    destruct (IsNotFound (err_of g)) eqn:Enf.
    + destruct (api (NamespacesCreate (mkNamespace ns None)) w1)
        as [[namespace|e] w2]; cbn [fst snd trace].
      * split; [reflexivity|]. split; [reflexivity|]. intros _ e He. discriminate.
      * split; [reflexivity|]. split; [reflexivity|]. intros _ e' He _.
        by inversion He.
    + split; [reflexivity|]. split; [reflexivity|]. discriminate.
Qed.

End Namespaces.

(** ** Default security context constraints *)

Section SecurityContextConstraints.

Context {W : Type} `{Cluster W} `{BootstrapPolicy}.
Variable c : MasterConfig.

Lemma createDefaultSCC_run (scc : SecurityContextConstraints) (w : W) :
  trace (createDefaultSCC scc w) = sccEvents scc (err_of (api (SCCCreate scc) w).1).
Proof.
  unfold createDefaultSCC, sccEvents, bind, call. cbn [value world trace].
  destruct (api (SCCCreate scc) w) as [[u|e] w1]; cbn [fst snd err_of].
  - reflexivity.
  - destruct e; reflexivity.
Qed.

(** C7.  The trace of [ensureDefaultSecurityContextConstraints] is, for
    each default object in turn, its creation and what the code makes of
    the result: nothing on already-exists, an error log on any other
    error, an info log on success.  Every object of the table is
    attempted, whatever the earlier creations returned. *)
Theorem default_sccs_created_independently (w : W) :
  exists errs : list error,
    length errs = length (defaultSecurityContextConstraints c) /\
    trace (ensureDefaultSecurityContextConstraints c w)
    = concat (zip_with sccEvents (defaultSecurityContextConstraints c) errs).
Proof.
  unfold ensureDefaultSecurityContextConstraints.
  generalize (defaultSecurityContextConstraints c) as table.
  intros table. revert w. induction table as [|scc table IH]; intros w.
  - exists []. split; reflexivity.
  - cbn [forM_]. rewrite trace_bind, createDefaultSCC_run.
    destruct (IH (world (createDefaultSCC scc w))) as (errs & Hlen & Ht).
    rewrite Ht. exists (err_of (api (SCCCreate scc) w).1 :: errs).
    split; [simpl; lia | reflexivity].
Qed.

End SecurityContextConstraints.

(** ** The cluster policy *)

Section ClusterPolicy.

Context {W : Type} `{Cluster W} `{BootstrapPolicy}.
Variable c : MasterConfig.

Lemma existsb_Forall_false {A} (f : A -> bool) (l : list A) :
  Forall (fun x => f x = false) l -> existsb f l = false.
Proof. induction 1 as [|x l Hx _ IH]; [reflexivity|]. simpl. by rewrite Hx, IH. Qed.

(** The final reconciliation: the two calls, each followed by an error
    log if it failed. *)
Lemma reconcileDiscovery_run (w : W) :
  exists e1 e2 : error, trace (reconcileDiscovery w) = discoveryEvents e1 e2.
Proof.
  unfold reconcileDiscovery, discoveryEvents, bind, call. cbn [value world trace].
  set (o := reconcileOptions DiscoveryRoleName).
  destruct (api (RunReconcileClusterRoles o) w) as [r1 w1]. cbn [fst snd].
  exists (err_of r1).
  destruct (isNil (err_of r1)); cbn [ret log emit value world trace].
  - destruct (api (RunReconcileClusterRoleBindings o) w1) as [r2 w2]. cbn [fst snd].
    exists (err_of r2). destruct (isNil (err_of r2)); reflexivity.
  - destruct (api (RunReconcileClusterRoleBindings o) w1) as [r2 w2]. cbn [fst snd].
    exists (err_of r2). destruct (isNil (err_of r2)); reflexivity.
Qed.

Lemma discoveryEvents_plain (e1 e2 : error) :
  Forall (fun e => isSeeding e = false /\ isLegacyConversion e = false /\
                   isExistenceCheck e = false)
         (discoveryEvents e1 e2).
Proof.
  unfold discoveryEvents. destruct (isNil e1), (isNil e2); repeat constructor.
Qed.

Lemma createNamespaceRole_no_check (namespace : string) (rbacRole : RbacRole) (w : W) :
  Forall (fun e => isExistenceCheck e = false)
         (trace (createNamespaceRole namespace rbacRole w)).
Proof.
  unfold createNamespaceRole.
  destruct (Convert_rbac_Role_To_authorization_Role rbacRole) as [role|err].
  - unfold bind, call. cbn [value world trace].
    destruct (isNil _); repeat constructor.
  - repeat constructor.
Qed.

Lemma createNamespaceRoleBinding_no_check (namespace : string)
    (rbacRoleBinding : RbacRoleBinding) (w : W) :
  Forall (fun e => isExistenceCheck e = false)
         (trace (createNamespaceRoleBinding namespace rbacRoleBinding w)).
Proof.
  unfold createNamespaceRoleBinding.
  destruct (Convert_rbac_RoleBinding_To_authorization_RoleBinding rbacRoleBinding)
    as [roleBinding|err].
  - unfold bind, call. cbn [value world trace].
    destruct (isNil _); repeat constructor.
  - repeat constructor.
Qed.

(** The seeding branch: the log line, the call that seeds the policy
    document, then events that are not existence checks. *)
Lemma createBootstrapPolicy_run (w : W) :
  exists (err : error) (rest : Trace),
    trace (createBootstrapPolicy c w)
    = Log Infof "No cluster policy found.  Creating bootstrap policy based on: %v"
          [BootstrapPolicyFile (Options c)] ::
      Call (OverwriteBootstrapPolicy (BootstrapPolicyFile (Options c))
              CreateBootstrapPolicyFileFullCommand true) err :: rest /\
    Forall (fun e => isExistenceCheck e = false) rest.
Proof.
  unfold createBootstrapPolicy.
  set (op := OverwriteBootstrapPolicy _ _ _).
  rewrite !trace_bind. cbn [log emit trace value world call].
  exists (err_of (api op w).1). eexists. split; [reflexivity|].
  apply Forall_app; split; [|apply Forall_app; split].
  - destruct (isNil _); repeat constructor.
  - apply forM__Forall. intros [namespace roles] w'.
    apply forM__Forall. intros rbacRole w''. apply createNamespaceRole_no_check.
  - apply forM__Forall. intros [namespace roleBindings] w'.
    apply forM__Forall. intros b w''. apply createNamespaceRoleBinding_no_check.
Qed.

(** [ensureComponentAuthorizationRules], case by case. *)
Lemma componentAuthorizationRules_run (w : W) :
  let storage := api NewREST w in
  let checked := api (GetClusterPolicy PolicyName) storage.2 in
  trace (ensureComponentAuthorizationRules c w) =
  match storage.1 with
  | Err e => [Call NewREST (Some e); Log Errorf "Error creating policy storage: %v" []]
  | Ok _ =>
      Call NewREST None ::
      Call (GetClusterPolicy PolicyName) (err_of checked.1) ::
      (if IsNotFound (err_of checked.1)
       then trace (createBootstrapPolicy c checked.2) ++
            trace (reconcileDiscovery (world (createBootstrapPolicy c checked.2)))
       else Log V2Infof "Ignoring bootstrap policy file because cluster policy found" [] ::
            trace (reconcileDiscovery checked.2))
  end.
Proof.
  cbn zeta. unfold ensureComponentAuthorizationRules.
  rewrite trace_bind. cbn [call value world trace].
  destruct (api NewREST w) as [[u|e] w1]; cbn [fst snd err_of]; [|reflexivity].
  rewrite !trace_bind. cbn [call value world trace].
  destruct (api (GetClusterPolicy PolicyName) w1) as [g w2]; cbn [fst snd].
  destruct (IsNotFound (err_of g)); reflexivity.
Qed.


Lemma existsb_no_check (f : Event -> bool) (t : Trace) :
  (forall e, isExistenceCheck e = false -> f e = false) ->
  Forall (fun e => isExistenceCheck e = false) t ->
  existsb f t = false.
Proof.
  intros Hf Ht. apply existsb_Forall_false.
  eapply Forall_impl; [exact Ht | exact Hf].
Qed.

Lemma reportedAbsent_check (e : Event) :
  isExistenceCheck e = false -> reportedAbsent e = false.
Proof. by destruct e as [[]| |]. Qed.

Lemma reportedPresent_check (e : Event) :
  isExistenceCheck e = false -> reportedPresent e = false.
Proof. by destruct e as [[]| |]. Qed.

Lemma discovery_existsb (f : Event -> bool) (w : W) :
  (forall e, isSeeding e = false /\ isLegacyConversion e = false /\
             isExistenceCheck e = false -> f e = false) ->
  existsb f (trace (reconcileDiscovery w)) = false.
Proof.
  intros Hf. destruct (reconcileDiscovery_run w) as (e1 & e2 & ->).
  apply existsb_Forall_false.
  eapply Forall_impl; [apply discoveryEvents_plain | exact Hf].
Qed.

(** C1.  [ensureComponentAuthorizationRules] seeds the policy document
    exactly when its existence check reported the document absent
    (not-found).  When the check reported the document present, the
    trace holds no seeding call and nothing of the conversion of the
    upstream roles and role bindings: the existing document is not
    overwritten. *)
Theorem policy_seeded_iff_reported_absent (w : W) :
  let t := trace (ensureComponentAuthorizationRules c w) in
  (existsb isSeeding t = true <-> existsb reportedAbsent t = true) /\
  (existsb reportedPresent t = true ->
   existsb isSeeding t = false /\ existsb isLegacyConversion t = false).
Proof.
  cbn zeta. rewrite componentAuthorizationRules_run. cbn zeta.
  destruct (api NewREST w) as [[u|e] w1]; cbn [fst snd].
  2: { split; [split|]; simpl; discriminate. }
  destruct (api (GetClusterPolicy PolicyName) w1) as [g w2]; cbn [fst snd].
  destruct (IsNotFound (err_of g)) eqn:Enf.
  - destruct (createBootstrapPolicy_run w2) as (err & rest & Ht & Hrest).
    rewrite Ht. split.
    + split; intros _.
      * cbn [existsb reportedAbsent]. rewrite Enf. reflexivity.
      * reflexivity.
    + cbn [existsb reportedPresent app isNil].
      destruct g as [|[]]; try discriminate. cbn [err_of isNil orb].
      rewrite existsb_app, (existsb_no_check _ _ reportedPresent_check Hrest).
      rewrite discovery_existsb; [discriminate|].
      intros e (_ & _ & He). by apply reportedPresent_check.
  - assert (existsb isSeeding (trace (reconcileDiscovery w2)) = false) as Hs
      by (apply discovery_existsb; tauto).
    assert (existsb isLegacyConversion (trace (reconcileDiscovery w2)) = false) as Hl
      by (apply discovery_existsb; tauto).
    assert (existsb reportedAbsent (trace (reconcileDiscovery w2)) = false) as Ha.
    { apply discovery_existsb. intros e (_ & _ & He). by apply reportedAbsent_check. }
    cbn [existsb isSeeding isLegacyConversion reportedAbsent orb].
    rewrite Hs, Hl, Ha, Enf. split; [split; discriminate|]. auto.
Qed.

(** C6, as the code has it.  Whenever the policy storage could be set
    up, the trace of [ensureComponentAuthorizationRules] ends with the
    reconciliation of the discovery cluster role and then of its
    binding, both in union mode and confirmed, whichever branch was
    taken before. *)
Theorem discovery_reconciled_when_storage_available (w : W) :
  err_of (api NewREST w).1 = None ->
  exists (before : Trace) (e1 e2 : error),
    trace (ensureComponentAuthorizationRules c w)
    = before ++ discoveryEvents e1 e2.
Proof.
  intros Hstorage. rewrite componentAuthorizationRules_run. cbn zeta.
  destruct (api NewREST w) as [[u|e] w1]; cbn [fst snd] in *; [|discriminate].
  set (g := api (GetClusterPolicy PolicyName) w1).
  destruct (IsNotFound (err_of g.1)).
  - destruct (reconcileDiscovery_run (world (createBootstrapPolicy c g.2)))
      as (e1 & e2 & ->).
    exists (Call NewREST None :: Call (GetClusterPolicy PolicyName) (err_of g.1) ::
            trace (createBootstrapPolicy c g.2)), e1, e2.
    reflexivity.
  - destruct (reconcileDiscovery_run g.2) as (e1 & e2 & ->).
    exists [Call NewREST None; Call (GetClusterPolicy PolicyName) (err_of g.1);
            Log V2Infof "Ignoring bootstrap policy file because cluster policy found" []],
           e1, e2.
    reflexivity.
Qed.

(** C10.  When the existence check returns anything but not-found, be it
    success or another error, [ensureComponentAuthorizationRules] does
    the same thing: after the check it logs one line at verbose level
    and goes on to the final reconciliation.  No seeding, no conversion
    and no error log come between the check and the reconciliation. *)
Theorem check_error_handled_as_present (w : W) :
  let storage := api NewREST w in
  let checked := api (GetClusterPolicy PolicyName) storage.2 in
  err_of storage.1 = None ->
  IsNotFound (err_of checked.1) = false ->
  ensureComponentAuthorizationRules c w
  = let d := reconcileDiscovery checked.2 in
    mkOutcome tt (world d)
      (Call NewREST None ::
       Call (GetClusterPolicy PolicyName) (err_of checked.1) ::
       Log V2Infof "Ignoring bootstrap policy file because cluster policy found" [] ::
       trace d).
Proof.
  cbn zeta. intros Hstorage Hcheck.
  unfold ensureComponentAuthorizationRules, bind, call in *.
  cbn [value world trace] in *.
  destruct (api NewREST w) as [[u|e] w1]; cbn [fst snd] in *; [|discriminate].
  cbn [value world trace].
  destruct (api (GetClusterPolicy PolicyName) w1) as [g w2]; cbn [fst snd] in *.
  rewrite Hcheck. cbn [log emit value world trace].
  destruct (reconcileDiscovery w2) as [[] wd td]. reflexivity.
Qed.

End ClusterPolicy.


(** * Further properties of [ensure.go] *)

(** ** Events a computation may emit *)

Section Frames.

Context {W : Type} `{Cluster W} `{BootstrapPolicy}.

Lemma bind_Forall {A B} (P : Event -> Prop) (m : M W A) (k : A -> M W B) (w : W) :
  Forall P (trace (m w)) ->
  (forall a w', Forall P (trace (k a w'))) ->
  Forall P (trace (bind m k w)).
Proof. intros Hm Hk. rewrite trace_bind. apply Forall_app; split; [exact Hm | apply Hk]. Qed.

Lemma call_Forall (P : Event -> Prop) (op : Op) (w : W) :
  (forall err, P (Call op err)) -> Forall P (trace (call op w)).
Proof. intros Hop. repeat constructor. apply Hop. Qed.

Lemma omap_nil_Forall {A} (f : Event -> option A) (t : Trace) :
  Forall (fun e => f e = None) t -> omap f t = [].
Proof. induction 1 as [|e t He _ IH]; [reflexivity|]. simpl. rewrite He. exact IH. Qed.

Lemma filter_nil_Forall (f : Event -> bool) (t : Trace) :
  Forall (fun e => f e = false) t -> List.filter f t = [].
Proof. induction 1 as [|e t He _ IH]; [reflexivity|]. simpl. by rewrite He, IH. Qed.

(** The events of the grants of a table. *)
Lemma grants_Forall (P : Event -> Prop) (namespace : Namespace)
    (table : list RoleBinding) (runs : list (nat * error)) :
  (forall binding err, In binding table ->
     P (Call (AddRole (addRoleOptions namespace binding)) err)) ->
  (forall binding, In binding table ->
     P (Log Errorf
          "Could not add service accounts to the %v role in the %q namespace: %v\n"
          [RefName (BindingRoleRef binding); Name namespace])) ->
  P (Sleep (BackoffMillis DefaultRetry)) ->
  Forall P (concat (zip_with (grantEvents namespace) table runs)).
Proof.
  intros Hadd Hlog Hsleep. apply Forall_concat, Forall_forall. intros t Ht.
  apply elem_of_lookup_zip_with in Ht as (i & binding & [k err] & -> & Hb & _).
  assert (In binding table) as Hin
    by (apply list_elem_of_In, list_elem_of_lookup; eauto).
  unfold grantEvents; simpl. apply Forall_app; split.
  - induction k as [|k IH]; [constructor|].
    rewrite conflicts_S. repeat constructor; auto.
  - destruct (isNil err); repeat constructor; auto.
Qed.

(** The events of the initializer of a namespace. *)
Lemma initializer_footprint (P : Event -> Prop) (namespace : Namespace) (w : W) :
  (forall binding err,
     In binding (GetBootstrapServiceAccountProjectRoleBindings (Name namespace)) ->
     P (Call (AddRole (addRoleOptions namespace binding)) err)) ->
  (forall binding,
     In binding (GetBootstrapServiceAccountProjectRoleBindings (Name namespace)) ->
     P (Log Errorf
          "Could not add service accounts to the %v role in the %q namespace: %v\n"
          [RefName (BindingRoleRef binding); Name namespace])) ->
  P (Sleep (BackoffMillis DefaultRetry)) ->
  (forall err, P (Call (NamespacesUpdate (markInitialized namespace)) err)) ->
  P (Log Errorf "Error recording adding service account roles to %q namespace: %v"
         [Name namespace]) ->
  Forall P (trace (ensureNamespaceServiceAccountRoleBindings namespace w)).
Proof.
  intros Hadd Hlog Hsleep Hupdate Hrec.
  destruct (decide (annotation namespace ServiceAccountRolesInitializedAnnotation
                    = "true")) as [Hmark|Hmark].
  - unfold ensureNamespaceServiceAccountRoleBindings.
    rewrite bool_decide_eq_true_2 by exact Hmark. constructor.
  - destruct (initializer_run namespace w Hmark) as (runs & _ & _ & Hrun).
    cbn zeta in Hrun.
    pose proof (grants_Forall P namespace _ runs Hadd Hlog Hsleep) as Hgrants.
    destruct (forallb grantSucceeded runs).
    + destruct Hrun as (_ & err & ->). apply Forall_app; split; [exact Hgrants|].
      unfold markerWrite.
      destruct (negb (isNil err) && negb (IsConflict err)); repeat constructor; auto.
    + destruct Hrun as (_ & ->). exact Hgrants.
Qed.

End Frames.

(** Walks through a computation to show that all its events satisfy a
    predicate, leaving the calls and the initializer to the caller. *)
Ltac walk :=
  repeat match goal with
  | |- Forall _ (trace (bind _ _ _)) => apply bind_Forall; [|intros ? ?]
  | |- Forall _ (trace (ret _ _)) => constructor
  | |- Forall _ (trace (log _ _ _ _)) => repeat constructor
  | |- Forall _ (trace (sleep _ _)) => repeat constructor
  | |- Forall _ (trace (forM_ _ _ _)) => apply forM__Forall; intros ? ?
  | |- Forall _ (trace (call _ _)) => apply call_Forall; intros ?
  | |- Forall _ (trace ((if ?b then _ else _) _)) => destruct b
  | |- Forall _ (trace (match ?x with _ => _ end _)) => destruct x
  end.

(** ** More on the service-account role bindings of a namespace *)

Section ServiceAccountRolesMore.

Context {W : Type} `{Cluster W} `{BootstrapPolicy}.

Lemma annotation_markInitialized_other (namespace : Namespace) (key : string) :
  key <> ServiceAccountRolesInitializedAnnotation ->
  annotation (markInitialized namespace) key = annotation namespace key.
Proof.
  intros Hkey. unfold annotation, markInitialized; simpl.
  rewrite lookup_insert_ne by congruence.
  destruct (Annotations namespace); simpl; [reflexivity|].
  by rewrite lookup_empty.
Qed.

(** X1.  Whatever the cluster answers, the only calls the initializer of
    a namespace makes are grants of the bootstrap table of that namespace,
    each made inside that namespace, and the update that writes its
    marker: it never fetches or creates a namespace and never touches
    another one. *)
Theorem initializer_calls_only_grants_and_marker (namespace : Namespace) (w : W) :
  Forall (initializerEvent namespace)
         (trace (ensureNamespaceServiceAccountRoleBindings namespace w)).
Proof.
  apply initializer_footprint; simpl; eauto.
Qed.

(** X2.  The namespace the initializer sends to the store keeps the name
    and every annotation of the one it was given, also when that one had
    no annotation map at all; only the marker is added, with the value
    "true". *)
Theorem marker_update_changes_only_marker (namespace : Namespace) (w : W) :
  Forall (updatesOnlyMarker namespace)
         (trace (ensureNamespaceServiceAccountRoleBindings namespace w)).
Proof.
  apply initializer_footprint; simpl; auto.
  intros _. split; [reflexivity|]. split.
  - apply annotation_markInitialized.
  - intros key Hkey. by apply annotation_markInitialized_other.
Qed.

(** X3.  The marker is written at most once per run, without retry, and
    the error log of that write appears exactly when the update failed
    with something other than a conflict: a conflict, like a success,
    leaves no log. *)
Theorem marker_write_once_conflict_silent (namespace : Namespace) (w : W) :
  let t := trace (ensureNamespaceServiceAccountRoleBindings namespace w) in
  length (List.filter isNamespacesUpdate t) <= 1 /\
  existsb isRecordingErrorLog t = existsb updateFailedHard t.
Proof.
  cbn zeta.
  destruct (decide (annotation namespace ServiceAccountRolesInitializedAnnotation
                    = "true")) as [Hmark|Hmark].
  - unfold ensureNamespaceServiceAccountRoleBindings.
    rewrite bool_decide_eq_true_2 by exact Hmark. simpl. auto.
  - destruct (initializer_run namespace w Hmark) as (runs & _ & _ & Hrun).
    cbn zeta in Hrun.
    set (grants := concat (zip_with (grantEvents namespace)
                     (GetBootstrapServiceAccountProjectRoleBindings (Name namespace))
                     runs)) in *.
    assert (Forall (fun e => isNamespacesUpdate e = false /\
                             isRecordingErrorLog e = false /\
                             updateFailedHard e = false) grants) as Hgrants
      by (apply grants_Forall; simpl; auto).
    assert (List.filter isNamespacesUpdate grants = []) as Hf.
    { apply filter_nil_Forall. eapply Forall_impl; [exact Hgrants|]. intros e; cbv beta; tauto. }
    assert (existsb isRecordingErrorLog grants = false) as Hr.
    { apply existsb_Forall_false. eapply Forall_impl; [exact Hgrants|]. intros e; cbv beta; tauto. }
    assert (existsb updateFailedHard grants = false) as Hu.
    { apply existsb_Forall_false. eapply Forall_impl; [exact Hgrants|]. intros e; cbv beta; tauto. }
    destruct (forallb grantSucceeded runs).
    + destruct Hrun as (_ & err & ->).
      rewrite List.filter_app, !existsb_app, Hf, Hr, Hu. unfold markerWrite.
      destruct err as [[]|]; simpl; auto.
    + destruct Hrun as (_ & ->). rewrite Hf, Hr, Hu. simpl. auto.
Qed.

(** X4.  A namespace whose bootstrap table is empty is marked right away:
    the run is the single update that writes the marker, and the object
    comes back marked whatever the update returned. *)
Theorem empty_table_is_marked_at_once (namespace : Namespace) (w : W) :
  annotation namespace ServiceAccountRolesInitializedAnnotation <> "true" ->
  GetBootstrapServiceAccountProjectRoleBindings (Name namespace) = [] ->
  let updated := api (NamespacesUpdate (markInitialized namespace)) w in
  ensureNamespaceServiceAccountRoleBindings namespace w
  = mkOutcome (markInitialized namespace) updated.2
      (markerWrite namespace (err_of updated.1)).
Proof.
  intros Hmark Htable. cbn zeta. unfold ensureNamespaceServiceAccountRoleBindings.
  rewrite bool_decide_eq_false_2 by exact Hmark. rewrite Htable.
  unfold bind, call, markerWrite. cbn [foldM ret value world trace app].
  destruct (api (NamespacesUpdate (markInitialized namespace)) w) as [r w1].
  cbn [fst snd].
  destruct (negb (isNil (err_of r)) && negb (IsConflict (err_of r))); reflexivity.
Qed.

(** X5.  Once a run has issued the update that writes the marker, the
    object it leaves is marked: running the initializer again on that
    object, on any cluster, does nothing.  This holds even if the update
    itself failed. *)
Theorem rerun_after_marker_is_noop (namespace : Namespace) (w w' : W) :
  let first := ensureNamespaceServiceAccountRoleBindings namespace w in
  existsb isNamespacesUpdate (trace first) = true ->
  ensureNamespaceServiceAccountRoleBindings (value first) w'
  = mkOutcome (value first) w' [].
Proof.
  cbn zeta. intros Hupdate.
  assert (annotation
            (value (ensureNamespaceServiceAccountRoleBindings namespace w))
            ServiceAccountRolesInitializedAnnotation = "true") as Hmarked.
  { destruct (decide (annotation namespace ServiceAccountRolesInitializedAnnotation
                      = "true")) as [Hmark|Hmark].
    - unfold ensureNamespaceServiceAccountRoleBindings in *.
      rewrite bool_decide_eq_true_2 in * by exact Hmark. discriminate.
    - destruct (initializer_run namespace w Hmark) as (runs & _ & _ & Hrun).
      cbn zeta in Hrun. destruct (forallb grantSucceeded runs).
      + destruct Hrun as (-> & _). apply annotation_markInitialized.
      + destruct Hrun as (_ & Ht). rewrite Ht in Hupdate.
        rewrite existsb_Forall_false in Hupdate; [discriminate|].
        apply grants_Forall; reflexivity. }
  unfold ensureNamespaceServiceAccountRoleBindings at 1.
  rewrite bool_decide_eq_true_2 by exact Hmarked. reflexivity.
Qed.

End ServiceAccountRolesMore.

(** ** More on the namespaces *)

Section NamespacesMore.

Context {W : Type} `{Cluster W} `{BootstrapPolicy}.
Variable c : MasterConfig.

Lemma reconcileControllerRoles_run (roles : list Role) (w : W) :
  exists errs : list error,
    length errs = length roles /\
    trace (forM_ reconcileControllerRole roles w)
    = concat (zip_with roleReconcileEvents roles errs).
Proof.
  revert w. induction roles as [|role roles IH]; intros w.
  - exists []. split; reflexivity.
  - cbn [forM_]. rewrite trace_bind.
    destruct (IH (world (reconcileControllerRole role w))) as (errs & Hlen & ->).
    set (op := RunReconcileClusterRoles (reconcileOptions (RoleName role))).
    exists (err_of (api op w).1 :: errs). split; [simpl; lia|].
    cbn [zip_with concat]. f_equal.
    unfold reconcileControllerRole, roleReconcileEvents, bind, call.
    cbn [value world trace]. fold op.
    destruct (isNil (err_of (api op w).1)); reflexivity.
Qed.

Lemma reconcileControllerRoleBindings_run (roleBindings : list RoleBinding) (w : W) :
  exists errs : list error,
    length errs = length roleBindings /\
    trace (forM_ reconcileControllerRoleBinding roleBindings w)
    = concat (zip_with roleBindingReconcileEvents roleBindings errs).
Proof.
  revert w. induction roleBindings as [|roleBinding roleBindings IH]; intros w.
  - exists []. split; reflexivity.
  - cbn [forM_]. rewrite trace_bind.
    destruct (IH (world (reconcileControllerRoleBinding roleBinding w)))
      as (errs & Hlen & ->).
    set (op := RunReconcileClusterRoleBindings
                 (reconcileOptions (RefName (BindingRoleRef roleBinding)))).
    exists (err_of (api op w).1 :: errs). split; [simpl; lia|].
    cbn [zip_with concat]. f_equal.
    unfold reconcileControllerRoleBinding, roleBindingReconcileEvents, bind, call.
    cbn [value world trace]. fold op.
    destruct (isNil (err_of (api op w).1)); reflexivity.
Qed.

(** X6.  Once [ensureOpenShiftInfraNamespace] holds the namespace, it
    reconciles every controller role, then every controller role binding
    (by the name of the role it refers to), each exactly once and in the
    order of the tables, logging the ones that fail; the failures stop
    neither the remaining reconciliations nor the initialization of the
    role bindings of the namespace, which always comes last. *)
Theorem infra_reconciles_all_then_initializes (namespace : Namespace) (w : W) :
  exists (errs errs' : list error) (w' : W),
    length errs = length ControllerRoles /\
    length errs' = length ControllerRoleBindings /\
    trace (initializeInfraNamespace namespace w)
    = concat (zip_with roleReconcileEvents ControllerRoles errs) ++
      concat (zip_with roleBindingReconcileEvents ControllerRoleBindings errs') ++
      trace (ensureNamespaceServiceAccountRoleBindings namespace w').
Proof.
  unfold initializeInfraNamespace.
  destruct (reconcileControllerRoles_run ControllerRoles w) as (errs & Hlen & Ht).
  set (w1 := world (forM_ reconcileControllerRole ControllerRoles w)).
  destruct (reconcileControllerRoleBindings_run ControllerRoleBindings w1)
    as (errs' & Hlen' & Ht').
  exists errs, errs',
    (world (forM_ reconcileControllerRoleBinding ControllerRoleBindings w1)).
  split; [exact Hlen|]. split; [exact Hlen'|].
  rewrite !trace_bind, Ht. fold w1. rewrite Ht'.
  cbn [ret trace]. by rewrite app_nil_r.
Qed.

(** X7.  Every reconciliation issued by [ensureOpenShiftInfraNamespace]
    and by [ensureComponentAuthorizationRules] names a single role, is
    confirmed and is in union mode, on every path and whatever the
    cluster answers. *)
Theorem reconciliations_are_union_and_confirmed (w : W) :
  Forall (fun e => unionConfirmed e = true)
         (trace (ensureOpenShiftInfraNamespace c w)) /\
  Forall (fun e => unionConfirmed e = true)
         (trace (ensureComponentAuthorizationRules c w)).
Proof.
  split.
  - unfold ensureOpenShiftInfraNamespace, ensureInfraNamespaceExists,
      initializeInfraNamespace, reconcileControllerRole,
      reconcileControllerRoleBinding.
    walk; try reflexivity.
    apply initializer_footprint; reflexivity.
  - unfold ensureComponentAuthorizationRules, createBootstrapPolicy,
      reconcileDiscovery, createNamespaceRole, createNamespaceRoleBinding.
    walk; reflexivity.
Qed.

(** X8.  When the shared namespace is reported not found and its creation
    succeeds, [ensureOpenShiftSharedResourcesNamespace] initializes the
    role bindings of the namespace the store returned, on the cluster as
    the creation left it, and does nothing else. *)
Theorem shared_namespace_created_then_initialized (w : W) (namespace : Namespace) :
  let ns := OpenShiftSharedResourcesNamespace (Options c) in
  let fetched := api (NamespacesGet ns) w in
  let created := api (NamespacesCreate (mkNamespace ns None)) fetched.2 in
  IsNotFound (err_of fetched.1) = true ->
  created.1 = Ok namespace ->
  ensureOpenShiftSharedResourcesNamespace c w
  = let i := ensureNamespaceServiceAccountRoleBindings namespace created.2 in
    mkOutcome tt (world i)
      (Call (NamespacesGet ns) (Some NotFound) ::
       Call (NamespacesCreate (mkNamespace ns None)) None :: trace i).
Proof.
  cbn zeta. intros Hfetched Hcreated.
  rewrite shared_namespace_run. cbn zeta.
  rewrite Hfetched, Hcreated. cbn zeta. by rewrite app_nil_r.
Qed.

(** X9.  When the first fetch of the default namespace succeeds,
    [ensureDefaultNamespaceServiceAccountRoles] does not sleep: it
    initializes the role bindings of the fetched namespace at once. *)
Theorem default_namespace_found_at_once (w : W) (namespace : Namespace) :
  let fetched := api (NamespacesGet NamespaceDefault) w in
  fetched.1 = Ok namespace ->
  ensureDefaultNamespaceServiceAccountRoles w
  = let i := ensureNamespaceServiceAccountRoleBindings namespace fetched.2 in
    mkOutcome tt (world i) (Call (NamespacesGet NamespaceDefault) None :: trace i).
Proof.
  cbn zeta. intros Hfetched.
  unfold ensureDefaultNamespaceServiceAccountRoles.
  change (waitForDefaultNamespace 30) with
    (g <- call (NamespacesGet NamespaceDefault) ;;
     match g with
     | Ok ns => ret (Found ns)
     | Err err =>
         if IsNotFound (Some err) then sleep 1000 ;;; waitForDefaultNamespace 29
         else log Errorf "Error adding service account roles to %q namespace: %v"
                  [NamespaceDefault] ;;; ret Aborted
     end).
  unfold bind, call. cbn [value world trace]. rewrite Hfetched.
  cbn [ret value world trace err_of app]. by rewrite app_nil_r.
Qed.

Lemma waitForDefaultNamespace_Forall (P : Event -> Prop) (n : nat) (w : W) :
  (forall err, P (Call (NamespacesGet NamespaceDefault) err)) ->
  P (Sleep 1000) ->
  P (Log Errorf "Error adding service account roles to %q namespace: %v"
         [NamespaceDefault]) ->
  Forall P (trace (waitForDefaultNamespace n w)).
Proof.
  intros Hget Hsleep Hlog. revert w.
  induction n as [|n IH]; intros w; cbn [waitForDefaultNamespace].
  - constructor.
  - apply bind_Forall; [apply call_Forall, Hget|]. intros [namespace|e] w'.
    + constructor.
    + destruct (IsNotFound (Some e)).
      * apply bind_Forall; [repeat constructor; exact Hsleep|]. intros _ w''. apply IH.
      * repeat constructor. exact Hlog.
Qed.

(** X10.  [ensureDefaultNamespaceServiceAccountRoles] never creates a
    namespace, and the only namespace it fetches is the default one: if
    the default namespace does not appear, it is left to whoever is to
    create it. *)
Theorem default_namespace_is_never_created (w : W) :
  Forall waitsForDefault (trace (ensureDefaultNamespaceServiceAccountRoles w)).
Proof.
  unfold ensureDefaultNamespaceServiceAccountRoles.
  apply bind_Forall.
  - apply waitForDefaultNamespace_Forall; simpl; auto.
  - intros [namespace| |] w'; walk; try exact I.
    apply initializer_footprint; simpl; auto.
Qed.

End NamespacesMore.

(** ** More on the cluster policy *)

Section ClusterPolicyMore.

Context {W : Type} `{Cluster W} `{BootstrapPolicy}.
Variable c : MasterConfig.

(** X11.  When the policy storage cannot be set up,
    [ensureComponentAuthorizationRules] logs the error and stops: the
    cluster policy is not looked up, nothing is seeded, converted or
    reconciled, and the cluster is as the failed set-up left it. *)
Theorem storage_failure_stops_everything (w : W) (e : StatusError) :
  (api NewREST w).1 = Err e ->
  ensureComponentAuthorizationRules c w
  = mkOutcome tt (api NewREST w).2
      [Call NewREST (Some e); Log Errorf "Error creating policy storage: %v" []].
Proof.
  intros Hstorage. unfold ensureComponentAuthorizationRules, bind, call.
  cbn [value world trace]. rewrite Hstorage. reflexivity.
Qed.

(** X12.  On the seeding branch the policy document is written from the
    configured bootstrap policy file, with the overwrite flag set.  If
    that fails the error is logged and the function carries on all the
    same: the conversion of the upstream roles and role bindings follows,
    and then the reconciliation of the discovery role and binding. *)
Theorem failed_seeding_does_not_stop_bootstrap (w : W) :
  let storage := api NewREST w in
  let checked := api (GetClusterPolicy PolicyName) storage.2 in
  err_of storage.1 = None ->
  IsNotFound (err_of checked.1) = true ->
  exists (err : error) (legacy : Trace) (e1 e2 : error),
    trace (ensureComponentAuthorizationRules c w)
    = [Call NewREST None;
       Call (GetClusterPolicy PolicyName) (Some NotFound);
       Log Infof "No cluster policy found.  Creating bootstrap policy based on: %v"
           [BootstrapPolicyFile (Options c)];
       Call (OverwriteBootstrapPolicy (BootstrapPolicyFile (Options c))
               CreateBootstrapPolicyFileFullCommand true) err] ++
      (if isNil err then []
       else [Log Errorf "Error creating bootstrap policy: %v" []]) ++
      legacy ++ discoveryEvents e1 e2 /\
    Forall (fun e => isLegacyConversion e = true) legacy.
Proof.
  cbn zeta. intros Hstorage Hcheck.
  rewrite componentAuthorizationRules_run. cbn zeta.
  destruct (api NewREST w) as [[u|e] w1]; cbn [fst snd] in *; [|discriminate].
  destruct (api (GetClusterPolicy PolicyName) w1) as [g w2]; cbn [fst snd] in *.
  rewrite Hcheck. destruct g as [|[]]; try discriminate. cbn [err_of].
  destruct (reconcileDiscovery_run (world (createBootstrapPolicy c w2)))
    as (e1 & e2 & ->).
  unfold createBootstrapPolicy.
  set (op := OverwriteBootstrapPolicy _ _ _).
  rewrite !trace_bind. cbn [log emit call value world trace].
  set (w3 := world _).
  set (roles := forM_ _ NamespaceRoles w3).
  set (roleBindings := forM_ _ NamespaceRoleBindings (world roles)).
  exists (err_of (api op w2).1), (trace roles ++ trace roleBindings), e1, e2.
  split.
  - cbn [app]. do 4 f_equal. rewrite <- !app_assoc. f_equal.
    destruct (isNil (err_of (api op w2).1)); reflexivity.
  - apply Forall_app; split; subst roles roleBindings;
      unfold createNamespaceRole, createNamespaceRoleBinding; walk; reflexivity.
Qed.

Lemma forM__omap {A B} (f : Event -> option B) (g : A -> list B)
    (body : A -> M W unit) (l : list A) :
  (forall x w, omap f (trace (body x w)) = g x) ->
  forall w, omap f (trace (forM_ body l w)) = List.flat_map g l.
Proof.
  intros Hbody. induction l as [|x l IH]; intros w; [reflexivity|].
  cbn [forM_ List.flat_map]. by rewrite trace_bind, omap_app, Hbody, IH.
Qed.

Lemma omap_flat_map {A B C} (f : B -> option C) (g : A -> list B) (l : list A) :
  List.flat_map (fun x => omap f (g x)) l = omap f (List.flat_map g l).
Proof.
  induction l as [|x l IH]; [reflexivity|].
  cbn [List.flat_map]. by rewrite omap_app, IH.
Qed.

Lemma createNamespaceRole_created (namespace : string) (rbacRole : RbacRole) (w : W) :
  omap createdRole (trace (createNamespaceRole namespace rbacRole w))
  = omap convertedRole [(namespace, rbacRole)].
Proof.
  unfold createNamespaceRole, convertedRole. cbn [omap list_omap fst snd].
  destruct (Convert_rbac_Role_To_authorization_Role rbacRole) as [role|err];
    [|reflexivity].
  unfold bind, call. cbn [value world trace].
  destruct (isNil _); reflexivity.
Qed.

Lemma createNamespaceRoleBinding_created (namespace : string)
    (rbacRoleBinding : RbacRoleBinding) (w : W) :
  omap createdRoleBinding
       (trace (createNamespaceRoleBinding namespace rbacRoleBinding w))
  = omap convertedRoleBinding [(namespace, rbacRoleBinding)].
Proof.
  unfold createNamespaceRoleBinding, convertedRoleBinding. cbn [omap list_omap fst snd].
  destruct (Convert_rbac_RoleBinding_To_authorization_RoleBinding rbacRoleBinding)
    as [roleBinding|err]; [|reflexivity].
  unfold bind, call. cbn [value world trace].
  destruct (isNil _); reflexivity.
Qed.

Lemma roles_loop_created (w : W) :
  omap createdRole
    (trace (forM_ (fun '(namespace, roles) => forM_ (createNamespaceRole namespace) roles)
                  NamespaceRoles w))
  = omap convertedRole legacyRoles.
Proof.
  unfold legacyRoles. rewrite <- omap_flat_map. apply forM__omap.
  intros [namespace roles] w'. cbn [fst snd].
  rewrite (forM__omap createdRole (fun r => omap convertedRole [(namespace, r)])).
  - induction roles as [|r roles IH]; [reflexivity|].
    cbn [List.flat_map map]. rewrite IH.
    change ((namespace, r) :: map (pair namespace) roles)
      with ([(namespace, r)] ++ map (pair namespace) roles).
    by rewrite omap_app.
  - intros r w''. apply createNamespaceRole_created.
Qed.

Lemma roleBindings_loop_created (w : W) :
  omap createdRoleBinding
    (trace (forM_ (fun '(namespace, roleBindings) =>
                     forM_ (createNamespaceRoleBinding namespace) roleBindings)
                  NamespaceRoleBindings w))
  = omap convertedRoleBinding legacyRoleBindings.
Proof.
  unfold legacyRoleBindings. rewrite <- omap_flat_map. apply forM__omap.
  intros [namespace roleBindings] w'. cbn [fst snd].
  rewrite (forM__omap createdRoleBinding
             (fun b => omap convertedRoleBinding [(namespace, b)])).
  - induction roleBindings as [|b roleBindings IH]; [reflexivity|].
    cbn [List.flat_map map]. rewrite IH.
    change ((namespace, b) :: map (pair namespace) roleBindings)
      with ([(namespace, b)] ++ map (pair namespace) roleBindings).
    by rewrite omap_app.
  - intros b w''. apply createNamespaceRoleBinding_created.
Qed.

(** X13.  On a run that found no cluster policy, the roles and role
    bindings created are exactly the entries of the upstream tables whose
    conversion succeeds, each once and in the order of the tables: an
    entry that cannot be converted is never created, and neither a failed
    conversion nor a failed creation keeps a later entry from being
    created. *)
Theorem legacy_objects_created_iff_convertible (w : W) :
  let t := trace (ensureComponentAuthorizationRules c w) in
  existsb reportedAbsent t = true ->
  omap createdRole t = omap convertedRole legacyRoles /\
  omap createdRoleBinding t = omap convertedRoleBinding legacyRoleBindings.
Proof.
  cbn zeta. rewrite componentAuthorizationRules_run. cbn zeta.
  destruct (api NewREST w) as [[u|e] w1]; cbn [fst snd]; [|discriminate].
  destruct (api (GetClusterPolicy PolicyName) w1) as [g w2]; cbn [fst snd].
  destruct (IsNotFound (err_of g)) eqn:Enf.
  - intros _.
    destruct (reconcileDiscovery_run (world (createBootstrapPolicy c w2)))
      as (e1 & e2 & ->).
    assert (omap createdRole (discoveryEvents e1 e2) = [] /\
            omap createdRoleBinding (discoveryEvents e1 e2) = []) as [Hd Hd'].
    { unfold discoveryEvents. destruct (isNil e1), (isNil e2); split; reflexivity. }
    unfold createBootstrapPolicy.
    set (op := OverwriteBootstrapPolicy _ _ _).
    rewrite !trace_bind. cbn [log emit call value world trace].
    set (w3 := world _).
    set (roles := forM_ _ NamespaceRoles w3).
    assert (omap createdRoleBinding (trace roles) = []) as Hr.
    { apply omap_nil_Forall. subst roles. unfold createNamespaceRole.
      walk; reflexivity. }
    set (roleBindings := forM_ _ NamespaceRoleBindings (world roles)).
    assert (omap createdRole (trace roleBindings) = []) as Hb.
    { apply omap_nil_Forall. subst roleBindings. unfold createNamespaceRoleBinding.
      walk; reflexivity. }
    split.
    + change (?a :: ?b :: ?l ++ ?d) with ([a; b] ++ l ++ d).
      rewrite !omap_app, Hd, Hb. subst roles. rewrite roles_loop_created.
      destruct (isNil (err_of (api op w2).1)); cbn; by rewrite ?app_nil_r.
    + change (?a :: ?b :: ?l ++ ?d) with ([a; b] ++ l ++ d).
      rewrite !omap_app, Hd', Hr. subst roleBindings.
      rewrite roleBindings_loop_created.
      destruct (isNil (err_of (api op w2).1)); cbn; by rewrite ?app_nil_r.
  - intros Habsent. exfalso.
    destruct (reconcileDiscovery_run w2) as (e1 & e2 & Ht). rewrite Ht in Habsent.
    cbn [existsb reportedAbsent] in Habsent. rewrite Enf in Habsent.
    cbn [orb] in Habsent.
    rewrite existsb_Forall_false in Habsent; [discriminate|].
    unfold discoveryEvents. destruct (isNil e1), (isNil e2); repeat constructor.
Qed.

End ClusterPolicyMore.
(** * Scenarios on the in-memory cluster *)

Module Scenarios.

Import Sim.

(** First start on a fresh cluster: the policy is seeded, the upstream
    role and binding are created, the discovery role and binding are
    reconciled.  On the second start only the reconciliation is left. *)
Example first_start :
  trace (ensureComponentAuthorizationRules config fresh)
  = [Call NewREST None;
     Call (GetClusterPolicy "default") (Some NotFound);
     Log Infof "No cluster policy found.  Creating bootstrap policy based on: %v"
         ["policy.json"];
     Call (OverwriteBootstrapPolicy "policy.json" "oadm create-bootstrap-policy-file" true)
          None;
     Call (RolesCreate "kube-public" (mkRole "system:controller:bootstrap-signer")) None;
     Call (RoleBindingsCreate "kube-public"
             (mkRoleBinding "system:controller:bootstrap-signer"
                (mkRoleRef "" "system:controller:bootstrap-signer") [])) None;
     Call (RunReconcileClusterRoles (mkReconcileOptions ["system:discovery"] true true))
          None;
     Call (RunReconcileClusterRoleBindings
             (mkReconcileOptions ["system:discovery"] true true)) None].
Proof. reflexivity. Qed.

Example second_start :
  trace (ensureComponentAuthorizationRules config
           (world (ensureComponentAuthorizationRules config fresh)))
  = [Call NewREST None;
     Call (GetClusterPolicy "default") None;
     Log V2Infof "Ignoring bootstrap policy file because cluster policy found" [];
     Call (RunReconcileClusterRoles (mkReconcileOptions ["system:discovery"] true true))
          None;
     Call (RunReconcileClusterRoleBindings
             (mkReconcileOptions ["system:discovery"] true true)) None].
Proof. reflexivity. Qed.

(** The default namespace never appears: 30 fetches, 30 sleeps, one
    error log. *)
Example default_namespace_never_appears :
  trace (ensureDefaultNamespaceServiceAccountRoles fresh)
  = polls 30 ++
    [Log Errorf "Namespace %q not found, could not initialize the %q namespace"
         ["default"; "default"]].
Proof. reflexivity. Qed.

(** The three grants of the default namespace succeed and the marker is
    written; the namespace as it is stored then makes the next run a
    no-op. *)
Example default_namespace_initialized_once :
  let first := ensureDefaultNamespaceServiceAccountRoles (having (project "default")) in
  length (List.filter isAddRole (trace first)) = 3 /\
  namespaces (world first) !! "default" = Some (markInitialized (project "default")) /\
  trace (ensureDefaultNamespaceServiceAccountRoles (world first))
  = [Call (NamespacesGet "default") None].
Proof. vm_compute. auto. Qed.

(** C3 on a marked namespace. *)
Lemma initialized_namespace_is_noop_witness :
  annotation (initialized "default") ServiceAccountRolesInitializedAnnotation = "true" /\
  ensureNamespaceServiceAccountRoleBindings (initialized "default")
    (having (initialized "default"))
  = mkOutcome (initialized "default") (having (initialized "default")) [].
Proof.
  split; [reflexivity|].
  apply (initialized_namespace_is_noop (initialized "default")
           (having (initialized "default"))).
  reflexivity.
Defined.

(** C2 where the first grant fails for good. *)
Lemma marker_only_after_all_grants_witness :
  annotation (project "default") ServiceAccountRolesInitializedAnnotation <> "true" /\
  (let r := ensureNamespaceServiceAccountRoleBindings (project "default") flaky in
   let table := GetBootstrapServiceAccountProjectRoleBindings (Name (project "default")) in
   exists (runs : list (nat * error)) (rest : Trace),
     length runs = length table /\
     trace r = concat (zip_with (grantEvents (project "default")) table runs) ++ rest /\
     if forallb grantSucceeded runs
     then (exists err, rest = markerWrite (project "default") err) /\
          value r = markInitialized (project "default") /\
          annotation (value r) ServiceAccountRolesInitializedAnnotation = "true"
     else rest = [] /\
          value r = project "default" /\
          existsb isNamespacesUpdate (trace r) = false /\
          annotation (value r) ServiceAccountRolesInitializedAnnotation <> "true").
Proof.
  split; [vm_compute; discriminate|].
  apply (marker_only_after_all_grants (project "default") flaky).
  vm_compute; discriminate.
Defined.

(** C8 on the same cluster. *)
Lemma grants_retried_on_conflict_and_independent_witness :
  annotation (project "default") ServiceAccountRolesInitializedAnnotation <> "true" /\
  (let r := ensureNamespaceServiceAccountRoleBindings (project "default") flaky in
   let table := GetBootstrapServiceAccountProjectRoleBindings (Name (project "default")) in
   exists (runs : list (nat * error)) (rest : Trace),
     length runs = length table /\
     Forall withinRetryPolicy runs /\
     trace r = concat (zip_with (grantEvents (project "default")) table runs) ++ rest /\
     Forall (fun e => isAddRole e = false) rest).
Proof.
  split; [vm_compute; discriminate|].
  apply (grants_retried_on_conflict_and_independent (project "default") flaky).
  vm_compute; discriminate.
Defined.

(** What C8 describes, spelled out on that cluster: one conflict, the
    pause, the terminal error and its log, then the two other grants. *)
Example flaky_grants :
  trace (ensureNamespaceServiceAccountRoleBindings (project "default") flaky)
  = concat (zip_with (grantEvents (project "default"))
              (projectRoleBindings "default")
              [(1, Some (Other "etcd unavailable")); (0, None); (0, None)]).
Proof. reflexivity. Qed.


(** C4: the shared namespace exists, and the function fetches it
    without attempting to create it. *)
Lemma shared_namespace_not_created_first :
  ~ createsFirst (OpenShiftSharedResourcesNamespace (Options config))
      (trace (ensureOpenShiftSharedResourcesNamespace config
                (having (project "openshift")))).
Proof. intros (err & rest & E). vm_compute in E. discriminate. Qed.

(** C4 as amended, where the creation of the shared namespace is
    refused. *)
Lemma namespace_ensurers_create_or_fetch_witness :
  trace (ensureOpenShiftSharedResourcesNamespace config refusingNamespaces)
  = [Call (NamespacesGet "openshift") (Some NotFound);
     Call (NamespacesCreate (mkNamespace "openshift" None)) (Some (Other "forbidden"));
     Log Errorf "Error creating namespace: %v due to %v\n" ["openshift"]].
Proof.
  apply (proj2 (proj2 (proj2
           (namespace_ensurers_create_or_fetch config refusingNamespaces))));
    reflexivity.
Defined.

(** C9 where the shared namespace exists. *)
Lemma shared_namespace_initialized_only_when_created_witness :
  let fetched := api (NamespacesGet "openshift") (having (project "openshift")) in
  IsNotFound (err_of fetched.1) = false /\
  ensureOpenShiftSharedResourcesNamespace config (having (project "openshift"))
  = mkOutcome tt fetched.2 [Call (NamespacesGet "openshift") (err_of fetched.1)].
Proof.
  split; [reflexivity|].
  apply (proj1 (shared_namespace_initialized_only_when_created config
                  (having (project "openshift")))).
  reflexivity.
Defined.

(** The same run, evaluated. *)
Example shared_namespace_exists :
  ensureOpenShiftSharedResourcesNamespace config (having (project "openshift"))
  = mkOutcome tt (having (project "openshift")) [Call (NamespacesGet "openshift") None].
Proof. reflexivity. Qed.

(** C6: the policy storage cannot be set up, and nothing is
    reconciled. *)
Lemma discovery_not_reconciled_without_storage :
  ~ exists (before : Trace) (e1 e2 : error),
      trace (ensureComponentAuthorizationRules config withoutStorage)
      = before ++ discoveryEvents e1 e2.
Proof.
  intros (before & e1 & e2 & E).
  assert (In (Call (RunReconcileClusterRoles (reconcileOptions DiscoveryRoleName)) e1)
             (trace (ensureComponentAuthorizationRules config withoutStorage)))
    as Hin.
  { rewrite E. apply in_or_app. right. left. reflexivity. }
  vm_compute in Hin. destruct Hin as [Hin|[Hin|[]]]; discriminate.
Qed.

(** C6 as amended, on a fresh cluster. *)
Lemma discovery_reconciled_when_storage_available_witness :
  err_of (api NewREST fresh).1 = None /\
  exists (before : Trace) (e1 e2 : error),
    trace (ensureComponentAuthorizationRules config fresh)
    = before ++ discoveryEvents e1 e2.
Proof.
  split; [reflexivity|].
  apply (discovery_reconciled_when_storage_available config fresh).
  reflexivity.
Defined.

(** C10 where the existence check times out. *)
Lemma check_error_handled_as_present_witness :
  ensureComponentAuthorizationRules config unreadablePolicy
  = mkOutcome tt fresh
      [Call NewREST None;
       Call (GetClusterPolicy "default") (Some (Other "request timed out"));
       Log V2Infof "Ignoring bootstrap policy file because cluster policy found" [];
       Call (RunReconcileClusterRoles (mkReconcileOptions ["system:discovery"] true true))
            None;
       Call (RunReconcileClusterRoleBindings
               (mkReconcileOptions ["system:discovery"] true true)) None].
Proof.
  etransitivity.
  - apply (check_error_handled_as_present config unreadablePolicy); reflexivity.
  - reflexivity.
Defined.

(** C1 where the cluster policy is present. *)
Lemma policy_seeded_iff_reported_absent_witness :
  existsb reportedPresent
    (trace (ensureComponentAuthorizationRules config bootstrapped)) = true /\
  existsb isSeeding
    (trace (ensureComponentAuthorizationRules config bootstrapped)) = false /\
  existsb isLegacyConversion
    (trace (ensureComponentAuthorizationRules config bootstrapped)) = false.
Proof.
  split; [reflexivity|].
  apply (proj2 (policy_seeded_iff_reported_absent config bootstrapped)).
  reflexivity.
Defined.

End Scenarios.

(** * More scenarios on the in-memory cluster *)

Module MoreScenarios.

Import Sim.

(** X4 on an installation without service-account grants. *)
Lemma empty_table_is_marked_at_once_witness :
  let updated := api (NamespacesUpdate (markInitialized (project "default")))
                     withDefault in
  annotation (project "default") ServiceAccountRolesInitializedAnnotation <> "true" /\
  @GetBootstrapServiceAccountProjectRoleBindings bare (Name (project "default")) = [] /\
  @ensureNamespaceServiceAccountRoleBindings State cluster bare (project "default")
     withDefault
  = mkOutcome (markInitialized (project "default")) updated.2
      (markerWrite (project "default") (err_of updated.1)).
Proof.
  split; [vm_compute; discriminate|]. split; [reflexivity|].
  apply (@empty_table_is_marked_at_once State cluster bare (project "default")
           withDefault).
  - vm_compute; discriminate.
  - reflexivity.
Defined.

(** X5 after a first run on a cluster that holds the default namespace. *)
Lemma rerun_after_marker_is_noop_witness :
  let first := ensureNamespaceServiceAccountRoleBindings (project "default")
                 withDefault in
  existsb isNamespacesUpdate (trace first) = true /\
  ensureNamespaceServiceAccountRoleBindings (value first) fresh
  = mkOutcome (value first) fresh [].
Proof.
  split; [reflexivity|].
  apply (rerun_after_marker_is_noop (project "default") withDefault fresh).
  reflexivity.
Defined.

(** X8 on a fresh cluster. *)
Lemma shared_namespace_created_then_initialized_witness :
  let fetched := api (NamespacesGet "openshift") fresh in
  let created := api (NamespacesCreate (mkNamespace "openshift" None)) fetched.2 in
  IsNotFound (err_of fetched.1) = true /\
  created.1 = Ok (project "openshift") /\
  ensureOpenShiftSharedResourcesNamespace config fresh
  = let i := ensureNamespaceServiceAccountRoleBindings (project "openshift")
               created.2 in
    mkOutcome tt (world i)
      (Call (NamespacesGet "openshift") (Some NotFound) ::
       Call (NamespacesCreate (mkNamespace "openshift" None)) None :: trace i).
Proof.
  split; [reflexivity|]. split; [reflexivity|].
  apply (shared_namespace_created_then_initialized config fresh (project "openshift"));
    reflexivity.
Defined.

(** X9 on a cluster that holds the default namespace. *)
Lemma default_namespace_found_at_once_witness :
  let fetched := api (NamespacesGet NamespaceDefault) withDefault in
  fetched.1 = Ok (project "default") /\
  ensureDefaultNamespaceServiceAccountRoles withDefault
  = let i := ensureNamespaceServiceAccountRoleBindings (project "default") fetched.2 in
    mkOutcome tt (world i) (Call (NamespacesGet NamespaceDefault) None :: trace i).
Proof.
  split; [reflexivity|].
  apply (default_namespace_found_at_once withDefault (project "default")).
  reflexivity.
Defined.

(** X11 on a cluster without policy storage. *)
Lemma storage_failure_stops_everything_witness :
  (api NewREST withoutStorage).1 = Err (Other "storage unavailable") /\
  ensureComponentAuthorizationRules config withoutStorage
  = mkOutcome tt (api NewREST withoutStorage).2
      [Call NewREST (Some (Other "storage unavailable"));
       Log Errorf "Error creating policy storage: %v" []].
Proof.
  split; [reflexivity|].
  apply (storage_failure_stops_everything config withoutStorage
           (Other "storage unavailable")).
  reflexivity.
Defined.

(** X12 on a cluster where seeding fails. *)
Lemma failed_seeding_does_not_stop_bootstrap_witness :
  exists (err : error) (legacy : Trace) (e1 e2 : error),
    trace (ensureComponentAuthorizationRules config unseedable)
    = [Call NewREST None;
       Call (GetClusterPolicy PolicyName) (Some NotFound);
       Log Infof "No cluster policy found.  Creating bootstrap policy based on: %v"
           [BootstrapPolicyFile (Options config)];
       Call (OverwriteBootstrapPolicy (BootstrapPolicyFile (Options config))
               CreateBootstrapPolicyFileFullCommand true) err] ++
      (if isNil err then []
       else [Log Errorf "Error creating bootstrap policy: %v" []]) ++
      legacy ++ discoveryEvents e1 e2 /\
    Forall (fun e => isLegacyConversion e = true) legacy.
Proof.
  apply (failed_seeding_does_not_stop_bootstrap config unseedable); reflexivity.
Defined.

(** The same run, evaluated: the failed seeding is logged, the upstream
    role and binding are created, the discovery role and binding are
    reconciled. *)
Example seeding_fails :
  trace (ensureComponentAuthorizationRules config unseedable)
  = [Call NewREST None;
     Call (GetClusterPolicy "default") (Some NotFound);
     Log Infof "No cluster policy found.  Creating bootstrap policy based on: %v"
         ["policy.json"];
     Call (OverwriteBootstrapPolicy "policy.json" "oadm create-bootstrap-policy-file" true)
          (Some (Other "policy file not found"));
     Log Errorf "Error creating bootstrap policy: %v" [];
     Call (RolesCreate "kube-public" (mkRole "system:controller:bootstrap-signer")) None;
     Call (RoleBindingsCreate "kube-public"
             (mkRoleBinding "system:controller:bootstrap-signer"
                (mkRoleRef "" "system:controller:bootstrap-signer") [])) None;
     Call (RunReconcileClusterRoles (mkReconcileOptions ["system:discovery"] true true))
          None;
     Call (RunReconcileClusterRoleBindings
             (mkReconcileOptions ["system:discovery"] true true)) None].
Proof. reflexivity. Qed.

(** X13 on an installation with an upstream role that cannot be
    converted. *)
Lemma legacy_objects_created_iff_convertible_witness :
  let t := trace (@ensureComponentAuthorizationRules State cluster bare config fresh) in
  existsb reportedAbsent t = true /\
  omap createdRole t = omap (@convertedRole bare) (@legacyRoles bare) /\
  omap createdRoleBinding t
  = omap (@convertedRoleBinding bare) (@legacyRoleBindings bare).
Proof.
  split; [reflexivity|].
  apply (@legacy_objects_created_iff_convertible State cluster bare config fresh).
  reflexivity.
Defined.

(** The same run, evaluated: the role without a name is reported and not
    created. *)
Example unconvertible_role_is_skipped :
  trace (@ensureComponentAuthorizationRules State cluster bare config fresh)
  = [Call NewREST None;
     Call (GetClusterPolicy "default") (Some NotFound);
     Log Infof "No cluster policy found.  Creating bootstrap policy based on: %v"
         ["policy.json"];
     Call (OverwriteBootstrapPolicy "policy.json" "oadm create-bootstrap-policy-file" true)
          None;
     Call (RolesCreate "kube-public" (mkRole "system:controller:bootstrap-signer")) None;
     Log HandleError "unable to convert role.%s/%s in %v: %v"
         ["rbac.authorization.k8s.io"; ""; "kube-public"];
     Call (RunReconcileClusterRoles (mkReconcileOptions ["system:discovery"] true true))
          None;
     Call (RunReconcileClusterRoleBindings
             (mkReconcileOptions ["system:discovery"] true true)) None].
Proof. reflexivity. Qed.

End MoreScenarios.
